(** * Task reminder: request handlers, validation and persistence

    Shallow embedding of [scripts/task_reminder.py].  The script holds the
    Flask request handlers; the two modules it imports,
    [database.db_manager] (persistence) and [database.model] (validation),
    are parameters of the handlers.  Both are also given a concrete model,
    written from the specification, in the modules [db_manager] and
    [model] below.

    Conventions.
    - A Python value that is a [str] or [None] (what [request.form.get]
      returns) is a [pyval].
    - Python [int]s are [Z].
    - A handler is a computation over a [World]: the persistent store, the
      flashed messages of the session and the lines sent to the logger.
      It may raise; state written before the raise is kept. *)

From Stdlib Require Import String Ascii List ZArith Bool Lia DecimalString.
From Stdlib Require DecimalPos DecimalZ.
Import ListNotations.

Local Open Scope string_scope.
Local Open Scope list_scope.
Local Open Scope Z_scope.

(** ** Python values *)

Inductive pyval : Type :=
| PyNone
| PyStr (s : string).

Coercion PyStr : string >-> pyval.

Definition pyval_eqb (a b : pyval) : bool :=
  match a, b with
  | PyNone, PyNone => true
  | PyStr x, PyStr y => String.eqb x y
  | _, _ => false
  end.

(** [str(v)], as an f-string renders a value. *)
Definition str (v : pyval) : string :=
  match v with
  | PyNone => "None"
  | PyStr s => s
  end.

(** [str(n)] for an [int]. *)
Definition str_int (n : Z) : string := NilZero.string_of_int (Z.to_int n).

Inductive exn : Type :=
| Exception (what : string).

Definition str_exn (e : exn) : string :=
  match e with Exception what => what end.

(** ** Data model *)

Record Task : Type := mkTask {
  id : Z;
  description : pyval;
  priority : pyval;
  completed : bool
}.

(** ** Requests and responses *)

(** The part of a Flask request the handlers read: the form fields and the
    headers, each as the pairs sent, in order.  Header names are taken as
    already normalised, so a lookup compares them as they are. *)
Record Request : Type := mkRequest {
  form : list (string * string);
  headers : list (string * string)
}.

Fixpoint lookup (key : string) (fields : list (string * string)) : option string :=
  match fields with
  | [] => None
  | (k, v) :: rest => if String.eqb k key then Some v else lookup key rest
  end.

(** [d.get(key)] *)
Definition get (fields : list (string * string)) (key : string) : pyval :=
  match lookup key fields with
  | Some v => PyStr v
  | None => PyNone
  end.

(** [d.get(key, default)] *)
Definition get_default (fields : list (string * string)) (key default : string) : pyval :=
  match lookup key fields with
  | Some v => PyStr v
  | None => PyStr default
  end.

Inductive Response : Type :=
| Json (body : list (string * string))
| Redirect (location : string)
| Render (template : string) (tasks : list Task).

(** [jsonify({...})] *)
Definition jsonify (body : list (string * string)) : Response := Json body.

(** [url_for(endpoint)] for the routes that take no argument: the index
    page is registered at ["/"], an endpoint [f] by default at ["/f"]. *)
Definition url_for (endpoint : string) : string :=
  if String.eqb endpoint "index" then "/"
  else if String.eqb endpoint "add" then "/add"
  else "/" ++ endpoint.

Definition redirect (location : string) : Response := Redirect location.

Definition render_template (template : string) (tasks : list Task) : Response :=
  Render template tasks.

(** ** The world a handler runs in *)

Inductive level : Type := INFO | WARNING | ERROR.

Record World (Store : Type) : Type := mkWorld {
  db : Store;
  flashes : list (string * string);
  log : list (level * string)
}.

Arguments mkWorld {Store} _ _ _.
Arguments db {Store} _.
Arguments flashes {Store} _.
Arguments log {Store} _.

(** A persistence operation: it reads and writes the store and either
    returns or raises. *)
Definition DB (Store A : Type) : Type := Store -> (exn + A) * Store.

(** A handler computation. *)
Definition M (Store A : Type) : Type := World Store -> (exn + A) * World Store.

Section Monad.
Context {Store : Type}.

Definition ret {A} (a : A) : M Store A := fun w => (inr a, w).

Definition bind {A B} (m : M Store A) (k : A -> M Store B) : M Store B :=
  fun w =>
    match m w with
    | (inr a, w') => k a w'
    | (inl e, w') => (inl e, w')
    end.

Definition raise {A} (e : exn) : M Store A := fun w => (inl e, w).

(** [try: body  except Exception as e: handler(e)] *)
Definition try_except {A} (body : M Store A) (handler : exn -> M Store A) : M Store A :=
  fun w =>
    match body w with
    | (inr a, w') => (inr a, w')
    | (inl e, w') => handler e w'
    end.

(** Running a persistence operation on the store of the world. *)
Definition call {A} (op : DB Store A) : M Store A :=
  fun w =>
    let (r, s) := op (db w) in
    (r, mkWorld s (flashes w) (log w)).

Definition logger (l : level) (line : string) : M Store unit :=
  fun w => (inr tt, mkWorld (db w) (flashes w) (log w ++ [(l, line)])).

Definition logger_info := logger INFO.
Definition logger_warning := logger WARNING.
Definition logger_error := logger ERROR.

(** [flash(message, category)] *)
Definition flash (message category : string) : M Store unit :=
  fun w => (inr tt, mkWorld (db w) (flashes w ++ [(message, category)]) (log w)).
End Monad.

Declare Scope handler_scope.
Delimit Scope handler_scope with handler.

Notation "x <- m ;; k" := (bind m (fun x => k))
  (at level 61, m at next level, right associativity) : handler_scope.
Notation "m ;; k" := (bind m (fun _ => k))
  (at level 61, right associativity) : handler_scope.

(** ** The script: [scripts/task_reminder.py] *)

Module task_reminder.
Section Handlers.
Local Open Scope string_scope.
Local Open Scope handler_scope.

Variable Store : Type.

(** [from database.db_manager import ...] *)
Variable init_db : DB Store unit.
Variable load_tasks : DB Store (list Task).
Variable add_task : pyval -> pyval -> DB Store Z.
Variable update_task : Z -> pyval -> pyval -> DB Store bool.
Variable delete_task : Z -> DB Store bool.
Variable mark_task : Z -> bool -> DB Store bool.

(** [from database.model import ...] *)
Variable validate_task_description : pyval -> bool * string.
Variable validate_priority : pyval -> bool.

(** [request.headers.get('X-Requested-With') == 'XMLHttpRequest'] *)
Definition is_xhr (request : Request) : bool :=
  pyval_eqb (get (headers request) "X-Requested-With") (PyStr "XMLHttpRequest").

(** The tail every mutating handler ends with:
    [if <xhr>: return jsonify({'message': message, 'status': status})]
    [flash(message, status)]
    [return redirect(url_for('index'))] *)
Definition respond (request : Request) (message status : string) : M Store Response :=
  if is_xhr request then
    ret (jsonify [("message", message); ("status", status)])
  else
    flash message status ;;
    ret (redirect (url_for "index")).

(** Module level, lines 36-42: the database is initialised when the
    script is loaded; a failure is logged and raised again. *)
Definition startup : M Store unit :=
  try_except
    (call init_db ;;
     logger_info "Database initialized successfully")
    (fun e =>
       logger_error ("Failed to initialize database: " ++ str_exn e) ;;
       raise e).

(** [@app.route('/')] *)
Definition index (request : Request) : M Store Response :=
  logger_info "Rendering index page" ;;
  try_except
    (tasks <- call load_tasks ;;
     ret (render_template "index.html" tasks))
    (fun e =>
       logger_error ("Error loading tasks: " ++ str_exn e) ;;
       flash "An error occurred while loading tasks." "error" ;;
       ret (render_template "index.html" [])).

(** [@app.route('/add', methods=['POST'])] *)
Definition add (request : Request) : M Store Response :=
  let description := get (form request) "description" in
  let priority := get_default (form request) "priority" "Medium" in
  let '(is_valid, error_message) := validate_task_description description in
  if negb is_valid then
    logger_warning ("Invalid task description: " ++ error_message) ;;
    if is_xhr request then
      ret (jsonify [("message", error_message); ("status", "error")])
    else
      flash error_message "error" ;;
      ret (redirect (url_for "index"))
  else
    priority <-
      (if negb (validate_priority priority) then
         logger_warning "Invalid priority provided, defaulting to Medium" ;;
         ret (PyStr "Medium")
       else ret priority) ;;
    ms <-
      try_except
        (task_id <- call (add_task description priority) ;;
         ret ("Task added: " ++ str description ++ " (ID: " ++ str_int task_id
                ++ ", Priority: " ++ str priority ++ ")",
              "success"))
        (fun e =>
           logger_error ("Error adding task: " ++ str_exn e) ;;
           ret ("Failed to add task. Please try again.", "error")) ;;
    respond request (fst ms) (snd ms).

(** [@app.route('/update/<int:task_id>', methods=['POST'])] *)
Definition update (task_id : Z) (request : Request) : M Store Response :=
  let new_description := get (form request) "description" in
  let new_priority := get (form request) "priority" in
  let '(is_valid, error_message) := validate_task_description new_description in
  if negb is_valid then
    logger_warning ("Invalid task description: " ++ error_message) ;;
    if is_xhr request then
      ret (jsonify [("message", error_message); ("status", "error")])
    else
      flash error_message "error" ;;
      ret (redirect (url_for "index"))
  else
    new_priority <-
      (if negb (validate_priority new_priority) then
         logger_warning "Invalid priority provided, defaulting to Medium" ;;
         ret (PyStr "Medium")
       else ret new_priority) ;;
    ms <-
      try_except
        (found <- call (update_task task_id new_description new_priority) ;;
         if found : bool then
           ret ("Task updated: " ++ str new_description ++ " (ID: " ++ str_int task_id
                  ++ ", Priority: " ++ str new_priority ++ ")",
                "success")
         else
           ret ("Task ID " ++ str_int task_id ++ " not found.", "error"))
        (fun e =>
           logger_error ("Error updating task ID " ++ str_int task_id ++ ": " ++ str_exn e) ;;
           ret ("Failed to update task. Please try again.", "error")) ;;
    respond request (fst ms) (snd ms).

(** [@app.route('/delete/<int:task_id>')] *)
Definition delete (task_id : Z) (request : Request) : M Store Response :=
  ms <-
    try_except
      (found <- call (delete_task task_id) ;;
       if found : bool then
         ret ("Task ID " ++ str_int task_id ++ " deleted.", "success")
       else
         ret ("Task ID " ++ str_int task_id ++ " not found.", "error"))
      (fun e =>
         logger_error ("Error deleting task ID " ++ str_int task_id ++ ": " ++ str_exn e) ;;
         ret ("Failed to delete task. Please try again.", "error")) ;;
  respond request (fst ms) (snd ms).

(** [@app.route('/complete/<int:task_id>')] *)
Definition complete (task_id : Z) (request : Request) : M Store Response :=
  ms <-
    try_except
      (found <- call (mark_task task_id true) ;;
       if found : bool then
         ret ("Task ID " ++ str_int task_id ++ " marked as completed.", "success")
       else
         ret ("Task ID " ++ str_int task_id ++ " not found.", "error"))
      (fun e =>
         logger_error ("Error marking task ID " ++ str_int task_id ++ " as complete: "
                         ++ str_exn e) ;;
         ret ("Failed to mark task as complete. Please try again.", "error")) ;;
  respond request (fst ms) (snd ms).

(** [@app.route('/incomplete/<int:task_id>')] *)
Definition incomplete (task_id : Z) (request : Request) : M Store Response :=
  ms <-
    try_except
      (found <- call (mark_task task_id false) ;;
       if found : bool then
         ret ("Task ID " ++ str_int task_id ++ " marked as incomplete.", "success")
       else
         ret ("Task ID " ++ str_int task_id ++ " not found.", "error"))
      (fun e =>
         logger_error ("Error marking task ID " ++ str_int task_id ++ " as incomplete: "
                         ++ str_exn e) ;;
         ret ("Failed to mark task as incomplete. Please try again.", "error")) ;;
  respond request (fst ms) (snd ms).
End Handlers.
End task_reminder.

(** ** Validation: [database/model.py] *)

Module model.
Section Validation.
Local Open Scope string_scope.

(** Modelled from the spec: the bound of "exceeds a max length"; the
    module that fixes its value is not part of the script, so it stays
    a parameter. *)
Variable MAX_DESCRIPTION_LENGTH : nat.

(** Modelled from the spec: the characters of a "whitespace-only" text,
    Python's [string.whitespace]: space, tab, line feed, vertical tab,
    form feed and carriage return. *)
Definition is_whitespace (c : ascii) : bool :=
  let n := nat_of_ascii c in
  (Nat.eqb n 32 || (Nat.leb 9 n && Nat.leb n 13))%bool.

(** Modelled from the spec: a text is blank when it is empty or holds
    whitespace only. *)
Fixpoint blank (text : string) : bool :=
  match text with
  | EmptyString => true
  | String c rest => (is_whitespace c && blank rest)%bool
  end.

(** Modelled from the spec: [validate_description(text) -> (ok,
    error_message)] "fails when text is empty/whitespace-only or exceeds
    a max length; returns a human-readable reason".  An absent form
    field ([None]) carries no text and is rejected like the empty one.
    The wording of the two reasons is not given by the spec. *)
Definition validate_task_description (text : pyval) : bool * string :=
  match text with
  | PyNone => (false, "Task description cannot be empty.")
  | PyStr s =>
      if blank s then (false, "Task description cannot be empty.")
      else if Nat.ltb MAX_DESCRIPTION_LENGTH (String.length s) then
        (false, "Task description is too long.")
      else (true, "")
  end.

(** Modelled from the spec: [validate_priority(value) -> bool] is "true
    only for the three recognized enum values" Low, Medium, High. *)
Definition validate_priority (value : pyval) : bool :=
  match value with
  | PyNone => false
  | PyStr s => (String.eqb s "Low" || String.eqb s "Medium" || String.eqb s "High")%bool
  end.
End Validation.
End model.

(** ** Persistence: [database/db_manager.py] *)

Module db_manager.
(** Modelled from the spec: the task records the persistence component
    owns, an "ordered sequence of Task". *)
Definition TaskStore : Type := list Task.

(** Modelled from the spec: the "underlying medium" of the store, which
    is either reachable, and then holds the task records, or
    unreachable. *)
Inductive Medium : Type :=
| Reachable (tasks : TaskStore)
| Unreachable.

(** Modelled from the spec: the "storage error" an operation fails with
    when the medium is unreachable. *)
Definition storage_error : exn := Exception "storage medium unreachable".

(** Modelled from the spec: whether "a task with [id] exists". *)
Definition exists_id (i : Z) (s : TaskStore) : bool :=
  existsb (fun t => id t =? i) s.

(** Modelled from the spec: the "new unique id" of [add], one more than
    the largest id in the store, so that the first task of an empty store
    gets id 1 as in the spec's example. *)
Definition new_id (s : TaskStore) : Z :=
  1 + fold_right Z.max 0 (map id s).

(** Modelled from the spec: [load_all() -> ordered sequence of Task], a
    "read-only snapshot". *)
Definition load_all (s : TaskStore) : list Task * TaskStore := (s, s).

(** Modelled from the spec: [add(description, priority) -> id] "assigns
    a new unique id, appends"; [completed] has its default, false. *)
Definition store_add (d p : pyval) (s : TaskStore) : Z * TaskStore :=
  let i := new_id s in
  (i, s ++ [mkTask i d p false]).

(** Modelled from the spec: [update(id, description, priority) -> bool]
    is "true if a task with [id] exists and was overwritten, else false
    (not found)"; the id and the completed flag of the task stay. *)
Definition store_update (i : Z) (d p : pyval) (s : TaskStore) : bool * TaskStore :=
  (exists_id i s,
   map (fun t => if id t =? i then mkTask (id t) d p (completed t) else t) s).

(** Modelled from the spec: [delete(id) -> bool], "same existence
    contract"; the task is removed. *)
Definition store_delete (i : Z) (s : TaskStore) : bool * TaskStore :=
  (exists_id i s, filter (fun t => negb (id t =? i)) s).

(** Modelled from the spec: [mark(id, completed) -> bool], "same
    existence contract"; the completed flag of the task is set. *)
Definition store_mark (i : Z) (c : bool) (s : TaskStore) : bool * TaskStore :=
  (exists_id i s,
   map (fun t => if id t =? i then mkTask (id t) (description t) (priority t) c else t) s).

(** Modelled from the spec: an operation on the medium "fail[s] with a
    storage error if the underlying medium is unreachable" and otherwise
    works on the task records. *)
Definition on_medium {A} (op : TaskStore -> A * TaskStore) : DB Medium A :=
  fun m =>
    match m with
    | Reachable s => let (a, s') := op s in (inr a, Reachable s')
    | Unreachable => (inl storage_error, Unreachable)
    end.

(** Modelled from the spec: [init()] "idempotently ensures storage
    exists"; it fails when the medium is unreachable. *)
Definition init_db : DB Medium unit := on_medium (fun s => (tt, s)).

(** Modelled from the spec: [load_all] on the medium. *)
Definition load_tasks : DB Medium (list Task) := on_medium load_all.

(** Modelled from the spec: [add] on the medium. *)
Definition add_task (d p : pyval) : DB Medium Z := on_medium (store_add d p).

(** Modelled from the spec: [update] on the medium. *)
Definition update_task (i : Z) (d p : pyval) : DB Medium bool :=
  on_medium (store_update i d p).

(** Modelled from the spec: [delete] on the medium. *)
Definition delete_task (i : Z) : DB Medium bool := on_medium (store_delete i).

(** Modelled from the spec: [mark] on the medium. *)
Definition mark_task (i : Z) (c : bool) : DB Medium bool := on_medium (store_mark i c).
End db_manager.

(** ** The application: the script linked with the two modelled modules *)

Module app.
Section App.
Variable MAX_DESCRIPTION_LENGTH : nat.

Definition world : Type := World db_manager.Medium.

Definition startup : M db_manager.Medium unit :=
  task_reminder.startup _ db_manager.init_db.

Definition index : Request -> M db_manager.Medium Response :=
  task_reminder.index _ db_manager.load_tasks.

Definition add : Request -> M db_manager.Medium Response :=
  task_reminder.add _ db_manager.add_task
    (model.validate_task_description MAX_DESCRIPTION_LENGTH) model.validate_priority.

Definition update : Z -> Request -> M db_manager.Medium Response :=
  task_reminder.update _ db_manager.update_task
    (model.validate_task_description MAX_DESCRIPTION_LENGTH) model.validate_priority.

Definition delete : Z -> Request -> M db_manager.Medium Response :=
  task_reminder.delete _ db_manager.delete_task.

Definition complete : Z -> Request -> M db_manager.Medium Response :=
  task_reminder.complete _ db_manager.mark_task.

Definition incomplete : Z -> Request -> M db_manager.Medium Response :=
  task_reminder.incomplete _ db_manager.mark_task.
End App.
End app.


(** * Properties *)

(** ** Specification vocabulary *)

(** How a mutating handler answers with [message] and [status]: a JSON
    object for a script-originated request, a flash and a redirect to the
    index page otherwise.  [w1] is the world just before the answer. *)
Definition answer {Store} (xhr : bool) (message status : string) (w1 : World Store)
  : (exn + Response) * World Store :=
  if xhr then
    (inr (Json [("message", message); ("status", status)]), w1)
  else
    (inr (Redirect "/"),
     mkWorld (db w1) (flashes w1 ++ [(message, status)]) (log w1)).

(** A handler answers by origin when, for given form fields and world, one
    message, one status and one world before the answer serve every choice
    of request headers: the headers only select, through the origin marker,
    between the two shapes of [answer]. *)
Definition answers_by_origin {Store} (handler : Request -> M Store Response) : Prop :=
  forall fields w, exists message status w1, forall hdrs,
    handler (mkRequest fields hdrs) w
    = answer (task_reminder.is_xhr (mkRequest fields hdrs)) message status w1.

(** The world [w] after one more line was sent to the logger. *)
Definition logged {Store} (l : level) (line : string) (w : World Store) : World Store :=
  mkWorld (db w) (flashes w) (log w ++ [(l, line)]).

(** The world [w] with the store replaced by [s]. *)
Definition with_db {Store} (s : Store) (w : World Store) : World Store :=
  mkWorld s (flashes w) (log w).

(** The priority a handler hands to persistence for a submitted one. *)
Definition stored_priority (submitted : pyval) : pyval :=
  if model.validate_priority submitted then submitted else PyStr "Medium".

(** The request [request] with the form field [key] set to [value]. *)
Definition with_field (key value : string) (request : Request) : Request :=
  mkRequest ((key, value) :: form request) (headers request).

(** How a call of [update_task], [delete_task] or [mark_task] ended: it
    returned true, it returned false, or it raised. *)
Inductive outcome : Type := Done | Missing | Failed.

Definition outcome_of (r : exn + bool) : outcome :=
  match r with
  | inr true => Done
  | inr false => Missing
  | inl _ => Failed
  end.

(** [int(s)]: reading back a decimal numeral. *)
Definition int_of_str (s : string) : option Z :=
  option_map Z.of_int (NilZero.int_of_string s).

(** A handler flashes once for a browser: a script-originated request
    leaves the flashes as they were; any other request appends exactly one
    flash, the message and status the same form would be answered with as
    JSON had it been script-originated. *)
Definition flashes_once_for_browser {Store} (handler : Request -> M Store Response)
  : Prop :=
  forall fields hdrs w,
    let after := snd (handler (mkRequest fields hdrs) w) in
    if task_reminder.is_xhr (mkRequest fields hdrs) then
      flashes after = flashes w
    else
      exists message status,
        flashes after = flashes w ++ [(message, status)] /\
        forall hdrs',
          task_reminder.is_xhr (mkRequest fields hdrs') = true ->
          fst (handler (mkRequest fields hdrs') w)
          = inr (Json [("message", message); ("status", status)]).

(** The characters of a text. *)
Definition chars (text : string) : list ascii := list_ascii_of_string text.

(** A text without content: every character of it, if any, is whitespace. *)
Definition whitespace_only (text : string) : Prop :=
  forall c, In c (chars text) -> model.is_whitespace c = true.

(** The ids of the tasks of a store. *)
Definition ids (s : db_manager.TaskStore) : list Z := map id s.

(** ** The task store *)

Module StoreFacts.
Import db_manager.

Lemma exists_id_false (i : Z) (s : TaskStore) :
  ~ In i (ids s) -> exists_id i s = false.
Proof.
  unfold exists_id, ids. induction s as [|t s IH]; simpl; intros H.
  - reflexivity.
  - destruct (Z.eqb_spec (id t) i) as [E|E].
    + exfalso. apply H. now left.
    + simpl. apply IH. intros Hin. apply H. now right.
Qed.

Lemma exists_id_true (i : Z) (s : TaskStore) :
  In i (ids s) -> exists_id i s = true.
Proof.
  unfold exists_id, ids. intros H. apply existsb_exists.
  apply in_map_iff in H. destruct H as [t [E Hin]].
  exists t. split; [assumption|]. now apply Z.eqb_eq.
Qed.

Lemma map_untouched (i : Z) (f : Task -> Task) (s : TaskStore) :
  ~ In i (ids s) -> map (fun t => if id t =? i then f t else t) s = s.
Proof.
  unfold ids. induction s as [|t s IH]; simpl; intros H.
  - reflexivity.
  - destruct (Z.eqb_spec (id t) i) as [E|E].
    + exfalso. apply H. now left.
    + f_equal. apply IH. intros Hin. apply H. now right.
Qed.

Lemma filter_untouched (i : Z) (s : TaskStore) :
  ~ In i (ids s) -> filter (fun t => negb (id t =? i)) s = s.
Proof.
  unfold ids. induction s as [|t s IH]; simpl; intros H.
  - reflexivity.
  - destruct (Z.eqb_spec (id t) i) as [E|E]; simpl.
    + exfalso. apply H. now left.
    + f_equal. apply IH. intros Hin. apply H. now right.
Qed.

Lemma update_unknown (i : Z) (d p : pyval) (s : TaskStore) :
  ~ In i (ids s) -> store_update i d p s = (false, s).
Proof.
  intros H. unfold store_update.
  rewrite (exists_id_false _ _ H), (map_untouched _ _ _ H). reflexivity.
Qed.

Lemma delete_unknown (i : Z) (s : TaskStore) :
  ~ In i (ids s) -> store_delete i s = (false, s).
Proof.
  intros H. unfold store_delete.
  rewrite (exists_id_false _ _ H), (filter_untouched _ _ H). reflexivity.
Qed.

Lemma mark_unknown (i : Z) (c : bool) (s : TaskStore) :
  ~ In i (ids s) -> store_mark i c s = (false, s).
Proof.
  intros H. unfold store_mark.
  rewrite (exists_id_false _ _ H), (map_untouched _ _ _ H). reflexivity.
Qed.

Lemma ids_below_new_id (s : TaskStore) (i : Z) :
  In i (ids s) -> i < new_id s.
Proof.
  unfold new_id, ids. induction s as [|t s IH]; cbn [map fold_right In]; intros H.
  - contradiction.
  - destruct H as [H|H].
    + subst. lia.
    + specialize (IH H). lia.
Qed.

Lemma new_id_fresh (s : TaskStore) : ~ In (new_id s) (ids s).
Proof.
  intros H. apply ids_below_new_id in H. lia.
Qed.

Lemma new_id_positive (s : TaskStore) : 1 <= new_id s.
Proof.
  unfold new_id.
  assert (H : 0 <= fold_right Z.max 0 (map id s)).
  { induction s as [|t s IH]; cbn [map fold_right]; lia. }
  lia.
Qed.

Lemma mark_ids (i : Z) (c : bool) (s : TaskStore) :
  ids (snd (store_mark i c s)) = ids s.
Proof.
  unfold ids, store_mark. simpl. rewrite map_map.
  apply map_ext. intros t. destruct (id t =? i); reflexivity.
Qed.

Lemma mark_mark (i : Z) (c c' : bool) (s : TaskStore) :
  snd (store_mark i c' (snd (store_mark i c s))) = snd (store_mark i c' s).
Proof.
  unfold store_mark. simpl. rewrite map_map.
  apply map_ext. intros t.
  destruct (Z.eqb_spec (id t) i) as [E|E]; simpl.
  - rewrite (proj2 (Z.eqb_eq _ _) E). reflexivity.
  - rewrite (proj2 (Z.eqb_neq _ _) E). reflexivity.
Qed.

Lemma mark_sets_flag (i : Z) (c : bool) (s : TaskStore) (t : Task) :
  In t (snd (store_mark i c s)) -> id t = i -> completed t = c.
Proof.
  unfold store_mark. simpl. intros Hin E.
  apply in_map_iff in Hin. destruct Hin as [u [Hu _]].
  destruct (Z.eqb_spec (id u) i) as [E'|E'].
  - subst t. reflexivity.
  - subst t. contradiction.
Qed.

Lemma mark_same_flag (i : Z) (c : bool) (s : TaskStore) :
  (forall t, In t s -> id t = i -> completed t = c) ->
  snd (store_mark i c s) = s.
Proof.
  unfold store_mark. simpl. induction s as [|t s IH]; simpl; intros H.
  - reflexivity.
  - f_equal.
    + destruct (Z.eqb_spec (id t) i) as [E|E]; [|reflexivity].
      rewrite <- (H t (or_introl eq_refl) E). destruct t; reflexivity.
    + apply IH. intros u Hu. apply H. now right.
Qed.

Lemma mark_frame (i : Z) (c : bool) (s : TaskStore) (n : nat) (t : Task) :
  nth_error s n = Some t ->
  nth_error (snd (store_mark i c s)) n
  = Some (if id t =? i then mkTask (id t) (description t) (priority t) c else t).
Proof.
  unfold store_mark. simpl. intros H.
  rewrite nth_error_map, H. reflexivity.
Qed.
End StoreFacts.

(** ** Running handlers *)

Ltac unfold_handler :=
  unfold task_reminder.index, task_reminder.add, task_reminder.update,
    task_reminder.delete, task_reminder.complete, task_reminder.incomplete,
    task_reminder.startup, task_reminder.respond,
    bind, try_except, call, ret, raise, flash,
    logger_info, logger_warning, logger_error, logger,
    jsonify, redirect, render_template, answer, logged, with_db.

Ltac by_origin request :=
  destruct (task_reminder.is_xhr request); cbn [db flashes log fst snd]; reflexivity.

(** What each handler of the script computes, by the result of the one
    persistence operation it invokes; for any persistence and validation
    modules. *)
Section Run.
Variable Store : Type.
Variable init_db : DB Store unit.
Variable load_tasks : DB Store (list Task).
Variable add_task : pyval -> pyval -> DB Store Z.
Variable update_task : Z -> pyval -> pyval -> DB Store bool.
Variable delete_task : Z -> DB Store bool.
Variable mark_task : Z -> bool -> DB Store bool.
Variable validate_task_description : pyval -> bool * string.
Variable validate_priority : pyval -> bool.

Local Open Scope string_scope.

Let xhr := task_reminder.is_xhr.

Lemma respond_answer (request : Request) (message status : string) (w : World Store) :
  task_reminder.respond Store request message status w
  = answer (xhr request) message status w.
Proof. subst xhr. unfold_handler. by_origin request. Qed.

Lemma startup_run (w : World Store) :
  task_reminder.startup Store init_db w =
  match init_db (db w) with
  | (inr _, s') => (inr tt, logged INFO "Database initialized successfully" (with_db s' w))
  | (inl e, s') =>
      (inl e, logged ERROR ("Failed to initialize database: " ++ str_exn e) (with_db s' w))
  end.
Proof.
  unfold_handler. destruct (init_db (db w)) as [[e|[]] s']; reflexivity.
Qed.

Lemma index_run (request : Request) (w : World Store) :
  task_reminder.index Store load_tasks request w =
  let w0 := logged INFO "Rendering index page" w in
  match load_tasks (db w) with
  | (inr tasks, s') => (inr (Render "index.html" tasks), with_db s' w0)
  | (inl e, s') =>
      let w1 := logged ERROR ("Error loading tasks: " ++ str_exn e) (with_db s' w0) in
      (inr (Render "index.html" []),
       mkWorld (db w1) (flashes w1 ++ [("An error occurred while loading tasks.", "error")])
         (log w1))
  end.
Proof.
  unfold_handler. cbn [db flashes log].
  destruct (load_tasks (db w)) as [[e|tasks] s']; reflexivity.
Qed.

Lemma add_run (request : Request) (w : World Store) :
  task_reminder.add Store add_task validate_task_description validate_priority request w =
  let d := get (form request) "description" in
  let p0 := get_default (form request) "priority" "Medium" in
  match validate_task_description d with
  | (false, error_message) =>
      answer (xhr request) error_message "error"
        (logged WARNING ("Invalid task description: " ++ error_message) w)
  | (true, _) =>
      let p := if validate_priority p0 then p0 else PyStr "Medium" in
      let w0 := if validate_priority p0 then w
                else logged WARNING "Invalid priority provided, defaulting to Medium" w in
      match add_task d p (db w) with
      | (inr task_id, s') =>
          answer (xhr request)
            ("Task added: " ++ str d ++ " (ID: " ++ str_int task_id
               ++ ", Priority: " ++ str p ++ ")")
            "success" (with_db s' w0)
      | (inl e, s') =>
          answer (xhr request) "Failed to add task. Please try again." "error"
            (logged ERROR ("Error adding task: " ++ str_exn e) (with_db s' w0))
      end
  end.
Proof.
  subst xhr. unfold_handler. cbv zeta.
  destruct (validate_task_description _) as [[|] msg]; cbn [negb].
  - destruct (validate_priority _); cbn [negb db flashes log];
      destruct (add_task _ _ (db w)) as [[e|task_id] s']; cbn [fst snd db flashes log];
      by_origin request.
  - by_origin request.
Qed.

Lemma update_run (task_id : Z) (request : Request) (w : World Store) :
  task_reminder.update Store update_task validate_task_description validate_priority
    task_id request w =
  let d := get (form request) "description" in
  let p0 := get (form request) "priority" in
  match validate_task_description d with
  | (false, error_message) =>
      answer (xhr request) error_message "error"
        (logged WARNING ("Invalid task description: " ++ error_message) w)
  | (true, _) =>
      let p := if validate_priority p0 then p0 else PyStr "Medium" in
      let w0 := if validate_priority p0 then w
                else logged WARNING "Invalid priority provided, defaulting to Medium" w in
      match update_task task_id d p (db w) with
      | (inr true, s') =>
          answer (xhr request)
            ("Task updated: " ++ str d ++ " (ID: " ++ str_int task_id
               ++ ", Priority: " ++ str p ++ ")")
            "success" (with_db s' w0)
      | (inr false, s') =>
          answer (xhr request) ("Task ID " ++ str_int task_id ++ " not found.") "error"
            (with_db s' w0)
      | (inl e, s') =>
          answer (xhr request) "Failed to update task. Please try again." "error"
            (logged ERROR ("Error updating task ID " ++ str_int task_id ++ ": " ++ str_exn e)
               (with_db s' w0))
      end
  end.
Proof.
  subst xhr. unfold_handler. cbv zeta.
  destruct (validate_task_description _) as [[|] msg]; cbn [negb].
  - destruct (validate_priority _); cbn [negb db flashes log];
      destruct (update_task _ _ _ (db w)) as [[e|[|]] s']; cbn [fst snd db flashes log];
      by_origin request.
  - by_origin request.
Qed.

Lemma delete_run (task_id : Z) (request : Request) (w : World Store) :
  task_reminder.delete Store delete_task task_id request w =
  match delete_task task_id (db w) with
  | (inr true, s') =>
      answer (xhr request) ("Task ID " ++ str_int task_id ++ " deleted.") "success"
        (with_db s' w)
  | (inr false, s') =>
      answer (xhr request) ("Task ID " ++ str_int task_id ++ " not found.") "error"
        (with_db s' w)
  | (inl e, s') =>
      answer (xhr request) "Failed to delete task. Please try again." "error"
        (logged ERROR ("Error deleting task ID " ++ str_int task_id ++ ": " ++ str_exn e)
           (with_db s' w))
  end.
Proof.
  subst xhr. unfold_handler.
  destruct (delete_task _ (db w)) as [[e|[|]] s']; cbn [fst snd db flashes log];
    by_origin request.
Qed.

Lemma complete_run (task_id : Z) (request : Request) (w : World Store) :
  task_reminder.complete Store mark_task task_id request w =
  match mark_task task_id true (db w) with
  | (inr true, s') =>
      answer (xhr request) ("Task ID " ++ str_int task_id ++ " marked as completed.")
        "success" (with_db s' w)
  | (inr false, s') =>
      answer (xhr request) ("Task ID " ++ str_int task_id ++ " not found.") "error"
        (with_db s' w)
  | (inl e, s') =>
      answer (xhr request) "Failed to mark task as complete. Please try again." "error"
        (logged ERROR ("Error marking task ID " ++ str_int task_id ++ " as complete: "
                         ++ str_exn e)
           (with_db s' w))
  end.
Proof.
  subst xhr. unfold_handler.
  destruct (mark_task _ _ (db w)) as [[e|[|]] s']; cbn [fst snd db flashes log];
    by_origin request.
Qed.

Lemma incomplete_run (task_id : Z) (request : Request) (w : World Store) :
  task_reminder.incomplete Store mark_task task_id request w =
  match mark_task task_id false (db w) with
  | (inr true, s') =>
      answer (xhr request) ("Task ID " ++ str_int task_id ++ " marked as incomplete.")
        "success" (with_db s' w)
  | (inr false, s') =>
      answer (xhr request) ("Task ID " ++ str_int task_id ++ " not found.") "error"
        (with_db s' w)
  | (inl e, s') =>
      answer (xhr request) "Failed to mark task as incomplete. Please try again." "error"
        (logged ERROR ("Error marking task ID " ++ str_int task_id ++ " as incomplete: "
                         ++ str_exn e)
           (with_db s' w))
  end.
Proof.
  subst xhr. unfold_handler.
  destruct (mark_task _ _ (db w)) as [[e|[|]] s']; cbn [fst snd db flashes log];
    by_origin request.
Qed.
End Run.

(** ** Persistence *)

Ltac on_reachable :=
  unfold db_manager.update_task, db_manager.delete_task, db_manager.mark_task,
    db_manager.add_task, db_manager.load_tasks, db_manager.init_db,
    db_manager.on_medium.

(** C1.  For a task store [s] and an id [i] that no task of [s] carries,
    [update], [delete] and [mark] return false and leave the store as it
    was; the handlers built on them leave the store as it was too, the
    delete, complete and incomplete handlers answering "not found". *)
Theorem unknown_id_returns_false_and_changes_nothing
    (n : nat) (s : db_manager.TaskStore) (i : Z) (d p : pyval) (c : bool)
    (request : Request) (fl : list (string * string)) (lg : list (level * string)) :
  ~ In i (ids s) ->
  let m := db_manager.Reachable s in
  let w := mkWorld m fl lg in
  let not_found := ("Task ID " ++ str_int i ++ " not found.")%string in
  db_manager.update_task i d p m = (inr false, m) /\
  db_manager.delete_task i m = (inr false, m) /\
  db_manager.mark_task i c m = (inr false, m) /\
  db (snd (app.update n i request w)) = m /\
  app.delete i request w = answer (task_reminder.is_xhr request) not_found "error" w /\
  app.complete i request w = answer (task_reminder.is_xhr request) not_found "error" w /\
  app.incomplete i request w = answer (task_reminder.is_xhr request) not_found "error" w.
Proof.
  intros H m w not_found.
  assert (U : forall d p, db_manager.update_task i d p m = (inr false, m)).
  { intros d' p'. subst m. on_reachable.
    rewrite (StoreFacts.update_unknown i d' p' s H). reflexivity. }
  assert (D : db_manager.delete_task i m = (inr false, m)).
  { subst m. on_reachable. rewrite (StoreFacts.delete_unknown i s H). reflexivity. }
  assert (K : forall c, db_manager.mark_task i c m = (inr false, m)).
  { intros c'. subst m. on_reachable.
    rewrite (StoreFacts.mark_unknown i c' s H). reflexivity. }
  split; [apply U|]. split; [apply D|]. split; [apply K|].
  split; [|split; [|split]].
  - unfold app.update. rewrite update_run. cbv zeta.
    destruct (model.validate_task_description n _) as [[|] msg].
    + change (db w) with m. rewrite U.
      destruct (model.validate_priority _); unfold answer;
        destruct (task_reminder.is_xhr request); reflexivity.
    + unfold answer. destruct (task_reminder.is_xhr request); reflexivity.
  - unfold app.delete. rewrite delete_run. change (db w) with m. rewrite D. reflexivity.
  - unfold app.complete. rewrite complete_run. change (db w) with m. rewrite K.
    reflexivity.
  - unfold app.incomplete. rewrite incomplete_run. change (db w) with m. rewrite K.
    reflexivity.
Qed.

Lemma unknown_id_witness :
  ~ In 7 (ids [mkTask 1 "Buy milk" "High" false]) /\
  db_manager.delete_task 7 (db_manager.Reachable [mkTask 1 "Buy milk" "High" false])
  = (inr false, db_manager.Reachable [mkTask 1 "Buy milk" "High" false]).
Proof.
  assert (H : ~ In 7 (ids [mkTask 1 "Buy milk" "High" false])).
  { simpl. intros [E|[]]. discriminate E. }
  split; [exact H|].
  exact (proj1 (proj2
    (unknown_id_returns_false_and_changes_nothing 200
       [mkTask 1 "Buy milk" "High" false] 7 "Buy bread" "Low" true
       (mkRequest [] []) [] [] H))).
Defined.

(** C3.  For every task store, [add] returns an id, and [load_all] then
    returns the old tasks followed by one new task: it has the returned id,
    the given description and priority, is not completed, and its id is the
    id of no task that was in the store before. *)
Theorem add_then_load_has_the_new_task (s : db_manager.TaskStore) (d p : pyval) :
  exists (i : Z) (t : Task),
    db_manager.add_task d p (db_manager.Reachable s)
    = (inr i, db_manager.Reachable (s ++ [t])) /\
    db_manager.load_tasks (db_manager.Reachable (s ++ [t]))
    = (inr (s ++ [t]), db_manager.Reachable (s ++ [t])) /\
    In t (s ++ [t]) /\
    id t = i /\ description t = d /\ priority t = p /\ completed t = false /\
    (forall u, In u s -> id u <> i).
Proof.
  exists (db_manager.new_id s), (mkTask (db_manager.new_id s) d p false).
  repeat split.
  - apply in_or_app. right. now left.
  - intros u Hu E.
    apply (StoreFacts.new_id_fresh s). rewrite <- E.
    unfold ids. now apply in_map.
Qed.

(** C8.  From the empty store, [add("Buy milk", "High")] returns id 1 and
    [load_all] then returns exactly the one task
    [{id: 1, description: "Buy milk", priority: "High", completed: false}]. *)
Theorem buy_milk_example :
  let t := mkTask 1 "Buy milk" "High" false in
  db_manager.add_task "Buy milk" "High" (db_manager.Reachable [])
  = (inr 1, db_manager.Reachable [t]) /\
  db_manager.load_tasks (db_manager.Reachable [t]) = (inr [t], db_manager.Reachable [t]).
Proof. split; reflexivity. Qed.

(** C5.  In a store that holds a task with id [i], [mark(i, true)] followed
    by [mark(i, false)] both return true and leave every task with id [i]
    not completed.  The store that results is the one [mark(i, false)]
    alone gives, so nothing of the first call is left: ids, descriptions,
    priorities and the flags of the other tasks are as before, and a store
    whose task [i] was not completed is back as it was.  Run through the
    complete and incomplete handlers, the two calls leave that same store. *)
Theorem mark_true_then_false_round_trips
    (s : db_manager.TaskStore) (i : Z)
    (r1 r2 : Request) (fl : list (string * string)) (lg : list (level * string)) :
  In i (ids s) ->
  exists s1 s2,
    db_manager.mark_task i true (db_manager.Reachable s)
    = (inr true, db_manager.Reachable s1) /\
    db_manager.mark_task i false (db_manager.Reachable s1)
    = (inr true, db_manager.Reachable s2) /\
    In i (ids s2) /\
    (forall t, In t s2 -> id t = i -> completed t = false) /\
    s2 = snd (db_manager.store_mark i false s) /\
    (forall k t, nth_error s k = Some t ->
       nth_error s2 k
       = Some (if id t =? i then mkTask (id t) (description t) (priority t) false else t)) /\
    ((forall t, In t s -> id t = i -> completed t = false) -> s2 = s) /\
    db (snd (app.incomplete i r2
               (snd (app.complete i r1 (mkWorld (db_manager.Reachable s) fl lg)))))
    = db_manager.Reachable s2.
Proof.
  intros H.
  set (s1 := snd (db_manager.store_mark i true s)).
  set (s2 := snd (db_manager.store_mark i false s1)).
  assert (H1 : In i (ids s1)) by (subst s1; now rewrite StoreFacts.mark_ids).
  assert (E2 : s2 = snd (db_manager.store_mark i false s))
    by (subst s2 s1; apply StoreFacts.mark_mark).
  assert (M1 : db_manager.mark_task i true (db_manager.Reachable s)
               = (inr true, db_manager.Reachable s1)).
  { on_reachable. unfold db_manager.store_mark at 1.
    rewrite (StoreFacts.exists_id_true i s H). reflexivity. }
  assert (M2 : db_manager.mark_task i false (db_manager.Reachable s1)
               = (inr true, db_manager.Reachable s2)).
  { on_reachable. unfold db_manager.store_mark at 1.
    rewrite (StoreFacts.exists_id_true i s1 H1). reflexivity. }
  exists s1, s2.
  split; [exact M1|]. split; [exact M2|].
  split; [subst s2; now rewrite StoreFacts.mark_ids|].
  split; [intros t Ht; subst s2; now apply (StoreFacts.mark_sets_flag i false s1)|].
  split; [exact E2|].
  split; [intros k t Hk; rewrite E2; now apply StoreFacts.mark_frame|].
  split; [intros Hs; rewrite E2; now apply StoreFacts.mark_same_flag|].
  unfold app.complete, app.incomplete.
  rewrite complete_run. cbn [db]. rewrite M1. cbv iota.
  unfold answer.
  destruct (task_reminder.is_xhr r1); cbn [snd];
    rewrite incomplete_run; unfold with_db; cbn [db]; rewrite M2;
    unfold answer; destruct (task_reminder.is_xhr r2); reflexivity.
Qed.

Lemma mark_round_trip_witness :
  In 1 (ids [mkTask 1 "Buy milk" "High" false; mkTask 2 "Call home" "Low" true]) /\
  exists s1 s2,
    db_manager.mark_task 1 true
      (db_manager.Reachable
         [mkTask 1 "Buy milk" "High" false; mkTask 2 "Call home" "Low" true])
    = (inr true, db_manager.Reachable s1) /\
    db_manager.mark_task 1 false (db_manager.Reachable s1)
    = (inr true, db_manager.Reachable s2) /\
    (forall t, In t s2 -> id t = 1 -> completed t = false).
Proof.
  assert (H : In 1 (ids [mkTask 1 "Buy milk" "High" false;
                         mkTask 2 "Call home" "Low" true])).
  { simpl. left. reflexivity. }
  split; [exact H|].
  destruct (mark_true_then_false_round_trips _ 1 (mkRequest [] []) (mkRequest [] [])
              [] [] H) as [s1 [s2 [M1 [M2 [_ [F _]]]]]].
  exists s1, s2. split; [exact M1|]. split; [exact M2|]. exact F.
Defined.

(** ** Validation *)

Lemma is_whitespace_chars (c : ascii) :
  model.is_whitespace c = true <->
  In c [" "; "009"; "010"; "011"; "012"; "013"]%char.
Proof.
  destruct c as [[|] [|] [|] [|] [|] [|] [|] [|]]; vm_compute; split;
    solve [ intros H; discriminate H
          | intros _; reflexivity
          | intros _; tauto
          | intros H; repeat (destruct H as [H|H]; [discriminate H|]); contradiction ].
Qed.

Lemma blank_spec (text : string) :
  model.blank text = true <-> whitespace_only text.
Proof.
  unfold whitespace_only, chars.
  induction text as [|c rest IH]; cbn [model.blank list_ascii_of_string In].
  - split; [intros _ c []|reflexivity].
  - rewrite andb_true_iff, IH. split.
    + intros [Hc Hrest] c' [E|Hin]; [now subst|now apply Hrest].
    + intros H. split; [apply H; now left|]. intros c' Hin. apply H. now right.
Qed.

Lemma not_blank_spec (text : string) :
  model.blank text = false <->
  exists c, In c (chars text) /\ model.is_whitespace c = false.
Proof.
  unfold chars.
  induction text as [|c rest IH]; cbn [model.blank list_ascii_of_string In].
  - split; [discriminate|intros [c [[] _]]].
  - rewrite andb_false_iff, IH. split.
    + intros [Hc|[c' [Hin Hc']]].
      * exists c. split; [now left|assumption].
      * exists c'. split; [now right|assumption].
    + intros [c' [[E|Hin] Hc']].
      * left. now subst.
      * right. exists c'. now split.
Qed.

(** C2.  [validate_task_description] rejects a text exactly when the text
    is empty, holds whitespace only, or is longer than the maximum length,
    and then gives a reason that is not empty; a text with a character that
    is not whitespace and of a length within the bound is accepted.  An
    absent text is rejected too. *)
Theorem description_rejected_iff_blank_or_too_long (n : nat) (text : string) :
  let r := model.validate_task_description n (PyStr text) in
  (fst r = false <->
     text = EmptyString \/ whitespace_only text \/ (n < String.length text)%nat) /\
  (fst r = false -> snd r <> EmptyString) /\
  ((exists c, In c (chars text) /\ model.is_whitespace c = false) ->
   (String.length text <= n)%nat -> fst r = true) /\
  fst (model.validate_task_description n PyNone) = false.
Proof.
  cbv zeta. unfold model.validate_task_description.
  destruct (model.blank text) eqn:B.
  - cbn [fst snd]. split; [|split; [|split]].
    + split; [|reflexivity]. intros _. right. left. now apply blank_spec.
    + intros _. discriminate.
    + intros Hc _. apply not_blank_spec in Hc. congruence.
    + reflexivity.
  - destruct (Nat.ltb_spec n (String.length text)) as [L|L]; cbn [fst snd].
    + split; [|split; [|split]].
      * split; [|reflexivity]. intros _. right. right. exact L.
      * intros _. discriminate.
      * intros _ Hle. lia.
      * reflexivity.
    + split; [|split; [|split]].
      * split; [discriminate|].
        intros [E|[W|T]].
        -- subst text. discriminate B.
        -- apply blank_spec in W. congruence.
        -- lia.
      * discriminate.
      * reflexivity.
      * reflexivity.
Qed.

Lemma description_validation_witness :
  (exists c, In c (chars "Buy milk") /\ model.is_whitespace c = false) /\
  (String.length "Buy milk" <= 200)%nat /\
  fst (model.validate_task_description 200 "Buy milk") = true.
Proof.
  assert (Hc : exists c, In c (chars "Buy milk") /\ model.is_whitespace c = false).
  { exists "B"%char. split; [left; reflexivity|reflexivity]. }
  assert (Hl : (String.length "Buy milk" <= 200)%nat) by (simpl; lia).
  split; [exact Hc|]. split; [exact Hl|].
  exact (proj1 (proj2 (proj2
    (description_rejected_iff_blank_or_too_long 200 "Buy milk"))) Hc Hl).
Defined.

(** ** Priorities *)

Lemma validate_priority_spec (v : pyval) :
  model.validate_priority v = true <->
  v = PyStr "Low" \/ v = PyStr "Medium" \/ v = PyStr "High".
Proof.
  destruct v as [|x]; cbn [model.validate_priority].
  - split; [discriminate|]. intros [E|[E|E]]; discriminate E.
  - rewrite !orb_true_iff, !String.eqb_eq. split.
    + intros [[E|E]|E]; subst; auto.
    + intros [E|[E|E]]; injection E as ->; auto.
Qed.

Lemma submitted_priority_is_read (request : Request) (v : string) :
  lookup "priority" (form request) = Some v ->
  get_default (form request) "priority" "Medium" = PyStr v /\
  get (form request) "priority" = PyStr v.
Proof.
  intros L. unfold get_default, get. now rewrite L.
Qed.

Lemma recognized_is_validated (v : string) :
  v = "Low"%string \/ v = "Medium"%string \/ v = "High"%string ->
  model.validate_priority (PyStr v) = true.
Proof.
  intros R. apply validate_priority_spec.
  destruct R as [ -> | [ -> | -> ] ]; auto.
Qed.

Lemma unrecognized_is_not_validated (v : string) :
  ~ (v = "Low"%string \/ v = "Medium"%string \/ v = "High"%string) ->
  model.validate_priority (PyStr v) = false.
Proof.
  intros R. destruct (model.validate_priority (PyStr v)) eqn:E; [|reflexivity].
  exfalso. apply R. apply validate_priority_spec in E.
  destruct E as [E|[E|E]]; injection E as ->; auto.
Qed.

(** What the add handler does with a submitted priority [v], in a request
    with a valid description on a reachable store. *)
Lemma add_with_submitted_priority
    (n : nat) (request : Request) (s : db_manager.TaskStore)
    (fl : list (string * string)) (lg : list (level * string)) (v : string) :
  let d := get (form request) "description" in
  let w := mkWorld (db_manager.Reachable s) fl lg in
  let j := db_manager.new_id s in
  let added := fun p : string =>
    ("Task added: " ++ str d ++ " (ID: " ++ str_int j ++ ", Priority: " ++ p ++ ")")%string in
  fst (model.validate_task_description n d) = true ->
  lookup "priority" (form request) = Some v ->
  (v = "Low"%string \/ v = "Medium"%string \/ v = "High"%string ->
   app.add n request w
   = answer (task_reminder.is_xhr request) (added v) "success"
       (mkWorld (db_manager.Reachable (s ++ [mkTask j d (PyStr v) false])) fl lg)) /\
  (~ (v = "Low"%string \/ v = "Medium"%string \/ v = "High"%string) ->
   app.add n request w
   = answer (task_reminder.is_xhr request) (added "Medium"%string) "success"
       (mkWorld (db_manager.Reachable (s ++ [mkTask j d (PyStr "Medium") false])) fl
          (lg ++ [(WARNING, "Invalid priority provided, defaulting to Medium"%string)]))).
Proof.
  intros d w j added V L.
  destruct (submitted_priority_is_read request v L) as [GD _].
  split; intros R; unfold app.add; rewrite add_run; cbv zeta; fold d; rewrite GD;
    destruct (model.validate_task_description n d) as [ok msg];
    cbn [fst] in V; subst ok.
  - rewrite (recognized_is_validated v R). reflexivity.
  - rewrite (unrecognized_is_not_validated v R). reflexivity.
Qed.

(** What the update handler does with a submitted priority [v], in a
    request with a valid description on a reachable store. *)
Lemma update_with_submitted_priority
    (n : nat) (i : Z) (request : Request) (s : db_manager.TaskStore)
    (fl : list (string * string)) (lg : list (level * string)) (v : string) :
  let d := get (form request) "description" in
  let w := mkWorld (db_manager.Reachable s) fl lg in
  let found := db_manager.exists_id i s in
  let answered := fun p : string =>
    answer (task_reminder.is_xhr request)
      (if found then
         "Task updated: " ++ str d ++ " (ID: " ++ str_int i ++ ", Priority: " ++ p ++ ")"
       else "Task ID " ++ str_int i ++ " not found.")%string
      (if found then "success" else "error")%string in
  fst (model.validate_task_description n d) = true ->
  lookup "priority" (form request) = Some v ->
  (v = "Low"%string \/ v = "Medium"%string \/ v = "High"%string ->
   app.update n i request w
   = answered v
       (mkWorld (db_manager.Reachable (snd (db_manager.store_update i d (PyStr v) s)))
          fl lg)) /\
  (~ (v = "Low"%string \/ v = "Medium"%string \/ v = "High"%string) ->
   app.update n i request w
   = answered "Medium"%string
       (mkWorld
          (db_manager.Reachable (snd (db_manager.store_update i d (PyStr "Medium") s)))
          fl
          (lg ++ [(WARNING, "Invalid priority provided, defaulting to Medium"%string)]))).
Proof.
  intros d w found answered V L. subst answered found.
  destruct (submitted_priority_is_read request v L) as [_ G].
  split; intros R; unfold app.update; rewrite update_run; cbv zeta; fold d; rewrite G;
    destruct (model.validate_task_description n d) as [ok msg];
    cbn [fst] in V; subst ok.
  - rewrite (recognized_is_validated v R). on_reachable.
    cbn [db w db_manager.store_update snd].
    destruct (db_manager.exists_id i s); reflexivity.
  - rewrite (unrecognized_is_not_validated v R). on_reachable.
    cbn [db w db_manager.store_update snd].
    destruct (db_manager.exists_id i s); reflexivity.
Qed.

(** C4.  [validate_priority] is true exactly for Low, Medium and High.  In
    a request whose description is valid, the add and update handlers hand
    a recognized priority to persistence as submitted and Medium in place
    of any other; neither case is an error: the add handler answers with
    success and the new task carries that priority, the update handler
    overwrites the task with it and answers with success when the task
    exists.

    The last two parts say so of the value in the form itself.  For the
    priority [v] the form of the request carries: when [v] is Low, Medium
    or High, the task added, and the task overwritten, has priority [v],
    the answer names [v], and nothing is logged; for any other [v] the task
    has priority Medium, the answer names Medium, and the fallback is
    logged.  And the same for a form written out, with the description
    [text] and the priority [v] as its first two fields. *)
Theorem recognized_priority_kept_other_becomes_medium
    (n : nat) (i : Z) (request : Request) (s : db_manager.TaskStore)
    (fl : list (string * string)) (lg : list (level * string)) :
  let d := get (form request) "description" in
  let w := mkWorld (db_manager.Reachable s) fl lg in
  let xhr := task_reminder.is_xhr request in
  let j := db_manager.new_id s in
  let found := db_manager.exists_id i s in
  let recognized := fun v : string =>
    v = "Low"%string \/ v = "Medium"%string \/ v = "High"%string in
  let warning := (WARNING, "Invalid priority provided, defaulting to Medium"%string) in
  let added := fun (d : pyval) (p : string) =>
    ("Task added: " ++ str d ++ " (ID: " ++ str_int j ++ ", Priority: " ++ p ++ ")")%string in
  let updated := fun (d : pyval) (p : string) =>
    (if found then
       "Task updated: " ++ str d ++ " (ID: " ++ str_int i ++ ", Priority: " ++ p ++ ")"
     else "Task ID " ++ str_int i ++ " not found.")%string in
  let status := (if found then "success" else "error")%string in
  fst (model.validate_task_description n d) = true ->
  (forall v : pyval,
     (model.validate_priority v = true <->
      v = PyStr "Low" \/ v = PyStr "Medium" \/ v = PyStr "High") /\
     (v = PyStr "Low" \/ v = PyStr "Medium" \/ v = PyStr "High" -> stored_priority v = v) /\
     (~ (v = PyStr "Low" \/ v = PyStr "Medium" \/ v = PyStr "High") ->
      stored_priority v = PyStr "Medium")) /\
  (let p := stored_priority (get_default (form request) "priority" "Medium") in
   exists message w1,
     app.add n request w = answer xhr message "success" w1 /\
     db w1 = db_manager.Reachable (s ++ [mkTask (db_manager.new_id s) d p false]) /\
     flashes w1 = fl) /\
  (let p := stored_priority (get (form request) "priority") in
   exists message w1,
     app.update n i request w
     = answer xhr message (if db_manager.exists_id i s then "success" else "error") w1 /\
     db w1 = db_manager.Reachable (snd (db_manager.store_update i d p s)) /\
     flashes w1 = fl) /\
  (forall v : string,
     lookup "priority" (form request) = Some v ->
     (recognized v ->
      app.add n request w
      = answer xhr (added d v) "success"
          (mkWorld (db_manager.Reachable (s ++ [mkTask j d (PyStr v) false])) fl lg) /\
      app.update n i request w
      = answer xhr (updated d v) status
          (mkWorld (db_manager.Reachable (snd (db_manager.store_update i d (PyStr v) s)))
             fl lg)) /\
     (~ recognized v ->
      app.add n request w
      = answer xhr (added d "Medium"%string) "success"
          (mkWorld (db_manager.Reachable (s ++ [mkTask j d (PyStr "Medium") false])) fl
             (lg ++ [warning])) /\
      app.update n i request w
      = answer xhr (updated d "Medium"%string) status
          (mkWorld
             (db_manager.Reachable
                (snd (db_manager.store_update i d (PyStr "Medium") s)))
             fl (lg ++ [warning])))) /\
  (forall (text v : string) (rest hdrs : list (string * string)),
     let submitted := mkRequest (("description", text) :: ("priority", v) :: rest) hdrs in
     fst (model.validate_task_description n (PyStr text)) = true ->
     (recognized v ->
      app.add n submitted w
      = answer (task_reminder.is_xhr submitted) (added (PyStr text) v) "success"
          (mkWorld (db_manager.Reachable (s ++ [mkTask j (PyStr text) (PyStr v) false]))
             fl lg) /\
      app.update n i submitted w
      = answer (task_reminder.is_xhr submitted) (updated (PyStr text) v) status
          (mkWorld
             (db_manager.Reachable
                (map (fun t => if id t =? i
                               then mkTask (id t) (PyStr text) (PyStr v) (completed t)
                               else t) s))
             fl lg)) /\
     (~ recognized v ->
      app.add n submitted w
      = answer (task_reminder.is_xhr submitted) (added (PyStr text) "Medium"%string)
          "success"
          (mkWorld
             (db_manager.Reachable (s ++ [mkTask j (PyStr text) (PyStr "Medium") false]))
             fl (lg ++ [warning])) /\
      app.update n i submitted w
      = answer (task_reminder.is_xhr submitted) (updated (PyStr text) "Medium"%string)
          status
          (mkWorld
             (db_manager.Reachable
                (map (fun t => if id t =? i
                               then mkTask (id t) (PyStr text) (PyStr "Medium") (completed t)
                               else t) s))
             fl (lg ++ [warning])))).
Proof.
  intros d w xhr j found recognized warning added updated status V.
  split; [|split; [|split; [|split]]].
  - intros v. pose proof (validate_priority_spec v) as S.
    split; [exact S|]. unfold stored_priority. split.
    + intros R. apply S in R. now rewrite R.
    + intros R. destruct (model.validate_priority v) eqn:E; [|reflexivity].
      exfalso. apply R, S. reflexivity.
  - cbv zeta. unfold app.add. rewrite add_run. cbv zeta. fold d.
    destruct (model.validate_task_description n d) as [ok msg].
    cbn [fst] in V. subst ok.
    unfold stored_priority.
    set (p0 := get_default (form request) "priority" "Medium").
    destruct (model.validate_priority p0); on_reachable;
      cbn [db w db_manager.store_add]; eexists; eexists;
      (split; [reflexivity|split; reflexivity]).
  - cbv zeta. unfold app.update. rewrite update_run. cbv zeta. fold d.
    destruct (model.validate_task_description n d) as [ok msg].
    cbn [fst] in V. subst ok.
    unfold stored_priority.
    set (p0 := get (form request) "priority").
    destruct (model.validate_priority p0); on_reachable;
      cbn [db w db_manager.store_update snd];
      destruct (db_manager.exists_id i s); eexists; eexists;
      (split; [reflexivity|split; reflexivity]).
  - intros v L.
    destruct (add_with_submitted_priority n request s fl lg v V L) as [A1 A2].
    destruct (update_with_submitted_priority n i request s fl lg v V L) as [U1 U2].
    split; intros R; split;
      [exact (A1 R)|exact (U1 R)|exact (A2 R)|exact (U2 R)].
  - intros text v rest hdrs submitted V'.
    assert (L : lookup "priority" (form submitted) = Some v) by reflexivity.
    destruct (add_with_submitted_priority n submitted s fl lg v V' L) as [A1 A2].
    destruct (update_with_submitted_priority n i submitted s fl lg v V' L) as [U1 U2].
    split; intros R; split;
      [exact (A1 R)|exact (U1 R)|exact (A2 R)|exact (U2 R)].
Qed.

Lemma recognized_priority_witness :
  let s := [mkTask 1 "Buy milk" "High" false] in
  let w := mkWorld (db_manager.Reachable s) [] [] in
  let high := mkRequest [("description", "Buy bread"); ("priority", "High")] [] in
  let low := mkRequest [("description", "Buy bread"); ("priority", "Low")] [] in
  let urgent := mkRequest [("description", "Buy bread"); ("priority", "Urgent")] [] in
  fst (model.validate_task_description 200 (get (form urgent) "description")) = true /\
  fst (model.validate_task_description 200 (PyStr "Buy bread")) = true /\
  lookup "priority" (form urgent) = Some "Urgent"%string /\
  app.add 200 high w
  = (inr (Redirect "/"),
     mkWorld
       (db_manager.Reachable
          [mkTask 1 "Buy milk" "High" false; mkTask 2 "Buy bread" "High" false])
       [("Task added: Buy bread (ID: 2, Priority: High)"%string, "success"%string)] []) /\
  app.update 200 1 low w
  = (inr (Redirect "/"),
     mkWorld (db_manager.Reachable [mkTask 1 "Buy bread" "Low" false])
       [("Task updated: Buy bread (ID: 1, Priority: Low)"%string, "success"%string)] []) /\
  app.add 200 urgent w
  = (inr (Redirect "/"),
     mkWorld
       (db_manager.Reachable
          [mkTask 1 "Buy milk" "High" false; mkTask 2 "Buy bread" "Medium" false])
       [("Task added: Buy bread (ID: 2, Priority: Medium)"%string, "success"%string)]
       [(WARNING, "Invalid priority provided, defaulting to Medium"%string)]).
Proof.
  cbv zeta.
  assert (V : fst (model.validate_task_description 200
                     (get (form (mkRequest [("description", "Buy bread");
                                            ("priority", "Urgent")] []))
                        "description")) = true) by reflexivity.
  assert (V' : fst (model.validate_task_description 200 (PyStr "Buy bread")) = true)
    by reflexivity.
  assert (L : lookup "priority"
                (form (mkRequest [("description", "Buy bread"); ("priority", "Urgent")] []))
              = Some "Urgent"%string) by reflexivity.
  assert (RH : "High"%string = "Low"%string \/ "High"%string = "Medium"%string
               \/ "High"%string = "High"%string) by (right; right; reflexivity).
  assert (RL : "Low"%string = "Low"%string \/ "Low"%string = "Medium"%string
               \/ "Low"%string = "High"%string) by (left; reflexivity).
  assert (RU : ~ ("Urgent"%string = "Low"%string \/ "Urgent"%string = "Medium"%string
                  \/ "Urgent"%string = "High"%string)).
  { intros [E|[E|E]]; discriminate E. }
  pose proof (recognized_priority_kept_other_becomes_medium 200 1
                (mkRequest [("description", "Buy bread"); ("priority", "Urgent")] [])
                [mkTask 1 "Buy milk" "High" false] [] [] V) as [_ [_ [_ [F G]]]].
  split; [exact V|]. split; [exact V'|]. split; [exact L|].
  split; [|split].
  - exact (proj1 (proj1 (G "Buy bread"%string "High"%string [] [] V') RH)).
  - exact (proj2 (proj1 (G "Buy bread"%string "Low"%string [] [] V') RL)).
  - exact (proj1 (proj2 (F "Urgent"%string L) RU)).
Defined.

Lemma get_with_other_field (key other value : string) (request : Request) :
  String.eqb other key = false ->
  get (form (with_field other value request)) key = get (form request) key.
Proof.
  intros E. unfold get, with_field. cbn [form lookup]. now rewrite E.
Qed.

(** C10.  When the priority field is absent from the form, the update
    handler reads [None], which [validate_priority] does not recognize, logs
    the fallback and stores Medium; the add handler reads Medium by the
    default of the form lookup, which is recognized, and stores it without
    a fallback.  In both handlers the request is answered as the same
    request with priority Medium submitted is: same response, same store,
    same flashes (and for add the same log), whatever the world. *)
Theorem absent_priority_is_medium
    (n : nat) (i : Z) (request : Request) (s : db_manager.TaskStore)
    (fl : list (string * string)) (lg : list (level * string)) :
  let d := get (form request) "description" in
  let w := mkWorld (db_manager.Reachable s) fl lg in
  let xhr := task_reminder.is_xhr request in
  let medium := with_field "priority" "Medium" request in
  lookup "priority" (form request) = None ->
  (get (form request) "priority" = PyNone /\
   model.validate_priority PyNone = false /\
   (fst (model.validate_task_description n d) = true ->
    exists message w1,
      app.update n i request w
      = answer xhr message (if db_manager.exists_id i s then "success" else "error") w1 /\
      db w1 = db_manager.Reachable (snd (db_manager.store_update i d (PyStr "Medium") s)) /\
      log w1 = lg ++ [(WARNING, "Invalid priority provided, defaulting to Medium")])) /\
  (get_default (form request) "priority" "Medium" = PyStr "Medium" /\
   model.validate_priority (PyStr "Medium") = true /\
   (fst (model.validate_task_description n d) = true ->
    exists message w1,
      app.add n request w = answer xhr message "success" w1 /\
      db w1 = db_manager.Reachable
                (s ++ [mkTask (db_manager.new_id s) d (PyStr "Medium") false]) /\
      log w1 = lg)) /\
  (forall w0 : app.world,
     (exists response, fst (app.update n i request w0) = inr response) /\
     fst (app.update n i request w0) = fst (app.update n i medium w0) /\
     db (snd (app.update n i request w0)) = db (snd (app.update n i medium w0)) /\
     flashes (snd (app.update n i request w0)) = flashes (snd (app.update n i medium w0)) /\
     (exists response, fst (app.add n request w0) = inr response) /\
     app.add n request w0 = app.add n medium w0).
Proof.
  intros d w xhr medium A.
  assert (G : get (form request) "priority" = PyNone) by (unfold get; now rewrite A).
  assert (GD : get_default (form request) "priority" "Medium" = PyStr "Medium")
    by (unfold get_default; now rewrite A).
  assert (Gd : get (form medium) "description" = d)
    by (apply get_with_other_field; reflexivity).
  split; [|split].
  - split; [exact G|]. split; [reflexivity|]. intros V.
    unfold app.update. rewrite update_run. cbv zeta. fold d. rewrite G.
    destruct (model.validate_task_description n d) as [ok msg].
    cbn [fst] in V. subst ok.
    cbn [model.validate_priority]. on_reachable.
    cbn [db w db_manager.store_update snd].
    destruct (db_manager.exists_id i s); eexists; eexists;
      (split; [reflexivity|split; reflexivity]).
  - split; [exact GD|]. split; [reflexivity|]. intros V.
    unfold app.add. rewrite add_run. cbv zeta. fold d. rewrite GD.
    destruct (model.validate_task_description n d) as [ok msg].
    cbn [fst] in V. subst ok.
    change (model.validate_priority (PyStr "Medium")) with true. cbv iota.
    on_reachable. cbn [db w db_manager.store_add].
    eexists; eexists; (split; [reflexivity|split; reflexivity]).
  - intros w0. unfold app.update, app.add.
    rewrite !update_run, !add_run. cbv zeta.
    rewrite Gd. fold d. rewrite G, GD.
    change (get (form medium) "priority") with (PyStr "Medium").
    change (get_default (form medium) "priority" "Medium") with (PyStr "Medium").
    change (task_reminder.is_xhr medium) with (task_reminder.is_xhr request).
    change (model.validate_priority PyNone) with false.
    change (model.validate_priority (PyStr "Medium")) with true. cbv iota.
    destruct (model.validate_task_description n d) as [[|] msg].
    + destruct (db_manager.update_task i d (PyStr "Medium") (db w0)) as [[e|[|]] s'];
        destruct (db_manager.add_task d (PyStr "Medium") (db w0)) as [[e'|j] s''];
        unfold answer, logged, with_db;
        destruct (task_reminder.is_xhr request); cbn [fst snd db flashes];
        repeat split; eexists; reflexivity.
    + unfold answer, logged, with_db;
        destruct (task_reminder.is_xhr request); cbn [fst snd db flashes];
        repeat split; eexists; reflexivity.
Qed.

Lemma absent_priority_witness :
  let request := mkRequest [("description", "Buy bread")] [] in
  let s := [mkTask 1 "Buy milk" "High" false] in
  lookup "priority" (form request) = None /\
  fst (model.validate_task_description 200 (get (form request) "description")) = true /\
  exists message w1,
    app.update 200 1 request (mkWorld (db_manager.Reachable s) [] [])
    = answer false message "success" w1 /\
    db w1 = db_manager.Reachable [mkTask 1 "Buy bread" "Medium" false] /\
    log w1 = [(WARNING, "Invalid priority provided, defaulting to Medium"%string)].
Proof.
  cbv zeta.
  assert (A : lookup "priority" (form (mkRequest [("description", "Buy bread")] []))
              = None) by reflexivity.
  assert (V : fst (model.validate_task_description 200
                     (get (form (mkRequest [("description", "Buy bread")] []))
                        "description")) = true) by reflexivity.
  split; [exact A|]. split; [exact V|].
  exact (proj2 (proj2 (proj1
    (absent_priority_is_medium 200 1 (mkRequest [("description", "Buy bread")] [])
       [mkTask 1 "Buy milk" "High" false] [] [] A))) V).
Defined.

(** ** The handlers, for any persistence and validation modules *)

Section AnyModules.
Variable Store : Type.
Variable init_db : DB Store unit.
Variable load_tasks : DB Store (list Task).
Variable add_task : pyval -> pyval -> DB Store Z.
Variable update_task : Z -> pyval -> pyval -> DB Store bool.
Variable delete_task : Z -> DB Store bool.
Variable mark_task : Z -> bool -> DB Store bool.
Variable validate_task_description : pyval -> bool * string.
Variable validate_priority : pyval -> bool.

Local Open Scope string_scope.

Local Abbreviation xhr := task_reminder.is_xhr.
Local Abbreviation startup := (task_reminder.startup Store init_db).
Local Abbreviation index := (task_reminder.index Store load_tasks).
Local Abbreviation add :=
  (task_reminder.add Store add_task validate_task_description validate_priority).
Local Abbreviation update :=
  (task_reminder.update Store update_task validate_task_description validate_priority).
Local Abbreviation delete := (task_reminder.delete Store delete_task).
Local Abbreviation complete := (task_reminder.complete Store mark_task).
Local Abbreviation incomplete := (task_reminder.incomplete Store mark_task).

Lemma answer_returns (b : bool) (message status : string) (w1 : World Store) :
  exists response w', answer b message status w1 = (inr response, w').
Proof. unfold answer. destruct b; eexists; eexists; reflexivity. Qed.

Lemma index_returns (request : Request) (w : World Store) :
  exists tasks w', index request w = (inr (Render "index.html" tasks), w').
Proof.
  rewrite index_run. cbv zeta.
  destruct (load_tasks (db w)) as [[e|tasks] s']; eexists; eexists; reflexivity.
Qed.

Lemma add_returns (request : Request) (w : World Store) :
  exists response w', add request w = (inr response, w').
Proof.
  rewrite add_run. cbv zeta.
  destruct (validate_task_description _) as [[|] msg]; [|apply answer_returns].
  destruct (add_task _ _ (db w)) as [[e|j] s']; apply answer_returns.
Qed.

Lemma update_returns (task_id : Z) (request : Request) (w : World Store) :
  exists response w', update task_id request w = (inr response, w').
Proof.
  rewrite update_run. cbv zeta.
  destruct (validate_task_description _) as [[|] msg]; [|apply answer_returns].
  destruct (update_task _ _ _ (db w)) as [[e|[|]] s']; apply answer_returns.
Qed.

Lemma delete_returns (task_id : Z) (request : Request) (w : World Store) :
  exists response w', delete task_id request w = (inr response, w').
Proof.
  rewrite delete_run.
  destruct (delete_task _ (db w)) as [[e|[|]] s']; apply answer_returns.
Qed.

Lemma complete_returns (task_id : Z) (request : Request) (w : World Store) :
  exists response w', complete task_id request w = (inr response, w').
Proof.
  rewrite complete_run.
  destruct (mark_task _ _ (db w)) as [[e|[|]] s']; apply answer_returns.
Qed.

Lemma incomplete_returns (task_id : Z) (request : Request) (w : World Store) :
  exists response w', incomplete task_id request w = (inr response, w').
Proof.
  rewrite incomplete_run.
  destruct (mark_task _ _ (db w)) as [[e|[|]] s']; apply answer_returns.
Qed.

(** C6.  Every handler returns a response for every request, whatever the
    persistence operations do, so nothing raised while a request is handled
    leaves the handler.  When the persistence operation a handler invokes
    raises [e], the handler logs it and answers with its fixed failure
    message and status "error" (the index handler: an error flash and the
    page with no tasks).  At startup, [init_db] raising [e] is logged and
    [e] is raised again. *)
Theorem storage_exceptions_are_caught_except_at_startup :
  (forall request w,
     (exists response w', index request w = (inr response, w')) /\
     (exists response w', add request w = (inr response, w')) /\
     (forall i, exists response w', update i request w = (inr response, w')) /\
     (forall i, exists response w', delete i request w = (inr response, w')) /\
     (forall i, exists response w', complete i request w = (inr response, w')) /\
     (forall i, exists response w', incomplete i request w = (inr response, w'))) /\
  (forall request w e s',
     load_tasks (db w) = (inl e, s') ->
     index request w
     = (inr (Render "index.html" []),
        mkWorld s' (flashes w ++ [("An error occurred while loading tasks.", "error")])
          (log w ++ [(INFO, "Rendering index page")]
                 ++ [(ERROR, "Error loading tasks: " ++ str_exn e)]))) /\
  (forall request w e s',
     let d := get (form request) "description" in
     let p0 := get_default (form request) "priority" "Medium" in
     let p := if validate_priority p0 then p0 else PyStr "Medium" in
     fst (validate_task_description d) = true ->
     add_task d p (db w) = (inl e, s') ->
     exists w1,
       add request w = answer (xhr request) "Failed to add task. Please try again." "error" w1 /\
       db w1 = s' /\ flashes w1 = flashes w /\
       In (ERROR, "Error adding task: " ++ str_exn e) (log w1)) /\
  (forall i request w e s',
     let d := get (form request) "description" in
     let p0 := get (form request) "priority" in
     let p := if validate_priority p0 then p0 else PyStr "Medium" in
     fst (validate_task_description d) = true ->
     update_task i d p (db w) = (inl e, s') ->
     exists w1,
       update i request w
       = answer (xhr request) "Failed to update task. Please try again." "error" w1 /\
       db w1 = s' /\ flashes w1 = flashes w /\
       In (ERROR, "Error updating task ID " ++ str_int i ++ ": " ++ str_exn e) (log w1)) /\
  (forall i request w e s',
     delete_task i (db w) = (inl e, s') ->
     delete i request w
     = answer (xhr request) "Failed to delete task. Please try again." "error"
         (logged ERROR ("Error deleting task ID " ++ str_int i ++ ": " ++ str_exn e)
            (with_db s' w))) /\
  (forall i request w e s',
     mark_task i true (db w) = (inl e, s') ->
     complete i request w
     = answer (xhr request) "Failed to mark task as complete. Please try again." "error"
         (logged ERROR ("Error marking task ID " ++ str_int i ++ " as complete: "
                          ++ str_exn e)
            (with_db s' w))) /\
  (forall i request w e s',
     mark_task i false (db w) = (inl e, s') ->
     incomplete i request w
     = answer (xhr request) "Failed to mark task as incomplete. Please try again." "error"
         (logged ERROR ("Error marking task ID " ++ str_int i ++ " as incomplete: "
                          ++ str_exn e)
            (with_db s' w))) /\
  (forall w e s',
     init_db (db w) = (inl e, s') ->
     startup w
     = (inl e, logged ERROR ("Failed to initialize database: " ++ str_exn e) (with_db s' w))).
Proof.
  split; [|split; [|split; [|split; [|split; [|split; [|split]]]]]].
  - intros request w.
    split; [destruct (index_returns request w) as [t [w' E]]; eauto|].
    split; [apply add_returns|].
    split; [intros i; apply update_returns|].
    split; [intros i; apply delete_returns|].
    split; [intros i; apply complete_returns|intros i; apply incomplete_returns].
  - intros request w e s' H. rewrite index_run. cbv zeta. rewrite H.
    unfold logged, with_db. cbn [db flashes log]. now rewrite <- app_assoc.
  - intros request w e s' d p0 p V H. rewrite add_run. cbv zeta. fold d p0.
    destruct (validate_task_description d) as [ok msg]. cbn [fst] in V. subst ok.
    fold p. rewrite H. eexists. split; [reflexivity|].
    unfold logged, with_db. cbn [db flashes log].
    split; [reflexivity|]. split; [now destruct (validate_priority p0)|].
    apply in_or_app. right. now left.
  - intros i request w e s' d p0 p V H. rewrite update_run. cbv zeta. fold d p0.
    destruct (validate_task_description d) as [ok msg]. cbn [fst] in V. subst ok.
    fold p. rewrite H. eexists. split; [reflexivity|].
    unfold logged, with_db. cbn [db flashes log].
    split; [reflexivity|]. split; [now destruct (validate_priority p0)|].
    apply in_or_app. right. now left.
  - intros i request w e s' H. rewrite delete_run, H. reflexivity.
  - intros i request w e s' H. rewrite complete_run, H. reflexivity.
  - intros i request w e s' H. rewrite incomplete_run, H. reflexivity.
  - intros w e s' H. rewrite startup_run, H. reflexivity.
Qed.

(** C7, as amended.  Each of the add, update, delete, complete and
    incomplete handlers answers by origin: for given form fields and world
    there is one message and one status, whatever the outcome (validation
    error, not found, storage error or success), and the request headers
    only choose between the JSON object [{message, status}] for a
    script-originated request and a flash of the message with a redirect
    otherwise.  The index handler renders the task list page for either
    origin. *)
Theorem mutating_handlers_answer_by_origin :
  answers_by_origin add /\
  (forall i, answers_by_origin (update i)) /\
  (forall i, answers_by_origin (delete i)) /\
  (forall i, answers_by_origin (complete i)) /\
  (forall i, answers_by_origin (incomplete i)) /\
  (forall request w, exists tasks w',
     index request w = (inr (Render "index.html" tasks), w')).
Proof.
  unfold answers_by_origin.
  split; [|split; [|split; [|split; [|split]]]].
  - intros fields w.
    destruct (validate_task_description (get fields "description")) as [ok msg] eqn:V.
    destruct ok.
    + set (p0 := get_default fields "priority" "Medium").
      set (p := if validate_priority p0 then p0 else PyStr "Medium").
      destruct (add_task (get fields "description") p (db w)) as [[e|j] s'] eqn:A;
        eexists; eexists; eexists; intros hdrs; rewrite add_run; cbv zeta;
        cbn [form]; rewrite V; fold p0; fold p; rewrite A; reflexivity.
    + eexists; eexists; eexists; intros hdrs; rewrite add_run; cbv zeta;
        cbn [form]; rewrite V; reflexivity.
  - intros i fields w.
    destruct (validate_task_description (get fields "description")) as [ok msg] eqn:V.
    destruct ok.
    + set (p0 := get fields "priority").
      set (p := if validate_priority p0 then p0 else PyStr "Medium").
      destruct (update_task i (get fields "description") p (db w)) as [[e|[|]] s'] eqn:A;
        eexists; eexists; eexists; intros hdrs; rewrite update_run; cbv zeta;
        cbn [form]; rewrite V; fold p0; fold p; rewrite A; reflexivity.
    + eexists; eexists; eexists; intros hdrs; rewrite update_run; cbv zeta;
        cbn [form]; rewrite V; reflexivity.
  - intros i fields w.
    destruct (delete_task i (db w)) as [[e|[|]] s'] eqn:A;
      eexists; eexists; eexists; intros hdrs; rewrite delete_run, A; reflexivity.
  - intros i fields w.
    destruct (mark_task i true (db w)) as [[e|[|]] s'] eqn:A;
      eexists; eexists; eexists; intros hdrs; rewrite complete_run, A; reflexivity.
  - intros i fields w.
    destruct (mark_task i false (db w)) as [[e|[|]] s'] eqn:A;
      eexists; eexists; eexists; intros hdrs; rewrite incomplete_run, A; reflexivity.
  - apply index_returns.
Qed.

(** C9.  When the description of an add or update request fails validation,
    the handler logs the reason and answers with it and status "error"; the
    store is as it was, and the result is the same whichever persistence
    operation the handler is given: none is invoked. *)
Theorem invalid_description_is_answered_before_persistence
    (i : Z) (request : Request) (w : World Store) :
  let v := validate_task_description (get (form request) "description") in
  let w1 := logged WARNING ("Invalid task description: " ++ snd v) w in
  fst v = false ->
  add request w = answer (xhr request) (snd v) "error" w1 /\
  update i request w = answer (xhr request) (snd v) "error" w1 /\
  db (snd (add request w)) = db w /\
  db (snd (update i request w)) = db w /\
  (forall add_task' : pyval -> pyval -> DB Store Z,
     task_reminder.add Store add_task' validate_task_description validate_priority
       request w
     = add request w) /\
  (forall update_task' : Z -> pyval -> pyval -> DB Store bool,
     task_reminder.update Store update_task' validate_task_description validate_priority
       i request w
     = update i request w).
Proof.
  intros v w1 V. subst w1.
  assert (A : forall op, task_reminder.add Store op validate_task_description
                validate_priority request w
              = answer (xhr request) (snd v) "error"
                  (logged WARNING ("Invalid task description: " ++ snd v) w)).
  { intros op. rewrite add_run. cbv zeta. fold v.
    destruct v as [ok msg]. cbn [fst snd] in *. subst ok. reflexivity. }
  assert (U : forall op, task_reminder.update Store op validate_task_description
                validate_priority i request w
              = answer (xhr request) (snd v) "error"
                  (logged WARNING ("Invalid task description: " ++ snd v) w)).
  { intros op. rewrite update_run. cbv zeta. fold v.
    destruct v as [ok msg]. cbn [fst snd] in *. subst ok. reflexivity. }
  split; [apply A|]. split; [apply U|].
  split; [rewrite A; unfold answer; now destruct (xhr request)|].
  split; [rewrite U; unfold answer; now destruct (xhr request)|].
  split; [intros op; now rewrite !A|intros op; now rewrite !U].
Qed.
End AnyModules.

Lemma storage_exceptions_witness :
  let w := mkWorld db_manager.Unreachable [] [] in
  let request := mkRequest [] [("X-Requested-With", "XMLHttpRequest")] in
  db_manager.delete_task 1 (db w) = (inl db_manager.storage_error, db_manager.Unreachable) /\
  db_manager.init_db (db w) = (inl db_manager.storage_error, db_manager.Unreachable) /\
  fst (app.delete 1 request w)
  = inr (Json [("message", "Failed to delete task. Please try again."); ("status", "error")]) /\
  fst (app.startup w) = inl db_manager.storage_error.
Proof.
  cbv zeta.
  pose proof (storage_exceptions_are_caught_except_at_startup
                db_manager.Medium db_manager.init_db db_manager.load_tasks
                db_manager.add_task db_manager.update_task db_manager.delete_task
                db_manager.mark_task (model.validate_task_description 200)
                model.validate_priority) as [_ [_ [_ [_ [D [_ [_ S]]]]]]].
  assert (HD : db_manager.delete_task 1 (db (mkWorld db_manager.Unreachable [] []))
               = (inl db_manager.storage_error, db_manager.Unreachable)) by reflexivity.
  assert (HS : db_manager.init_db (db (mkWorld db_manager.Unreachable [] []))
               = (inl db_manager.storage_error, db_manager.Unreachable)) by reflexivity.
  split; [exact HD|]. split; [exact HS|]. split.
  - unfold app.delete.
    rewrite (D 1 (mkRequest [] [("X-Requested-With", "XMLHttpRequest")]) _ _ _ HD).
    reflexivity.
  - unfold app.startup. rewrite (S _ _ _ HS). reflexivity.
Defined.

Lemma invalid_description_witness :
  let w := mkWorld (db_manager.Reachable [mkTask 1 "Buy milk" "High" false]) [] [] in
  let request := mkRequest [("description", "   "); ("priority", "High")] [] in
  fst (model.validate_task_description 200 (get (form request) "description")) = false /\
  db (snd (app.add 200 request w)) = db w /\
  db (snd (app.update 200 1 request w)) = db w.
Proof.
  cbv zeta.
  assert (V : fst (model.validate_task_description 200
                     (get (form (mkRequest [("description", "   "); ("priority", "High")] []))
                        "description")) = false) by reflexivity.
  split; [exact V|].
  pose proof (invalid_description_is_answered_before_persistence
                db_manager.Medium db_manager.add_task db_manager.update_task
                (model.validate_task_description 200) model.validate_priority
                1 (mkRequest [("description", "   "); ("priority", "High")] [])
                (mkWorld (db_manager.Reachable [mkTask 1 "Buy milk" "High" false]) [] [])
                V) as [_ [_ [A [U _]]]].
  split; [exact A|exact U].
Defined.

(** C7 as stated fails at the index handler: for a script-originated
    request it renders the page, it does not answer with a JSON object. *)
Lemma index_does_not_answer_by_origin :
  let request := mkRequest [] [("X-Requested-With", "XMLHttpRequest")] in
  let w := mkWorld (db_manager.Reachable []) [] [] in
  task_reminder.is_xhr request = true /\
  fst (app.index request w) = inr (Render "index.html" []) /\
  (forall body, fst (app.index request w) <> inr (Json body)) /\
  ~ answers_by_origin app.index.
Proof.
  cbv zeta. split; [reflexivity|]. split; [reflexivity|]. split.
  - intros body H. discriminate H.
  - intros H.
    destruct (H [] (mkWorld (db_manager.Reachable []) [] [])) as [message [status [w1 E]]].
    specialize (E [("X-Requested-With", "XMLHttpRequest")]).
    discriminate E.
Qed.

(** ** Texts of the answers *)

Lemma str_int_round_trip (n : Z) : int_of_str (str_int n) = Some n.
Proof.
  unfold int_of_str, str_int.
  rewrite NilZero.isi.
  - cbn [option_map]. now rewrite DecimalZ.of_to.
  - destruct n as [|q|q]; cbn [Z.to_int]; try discriminate.
    intros E. injection E as E. now apply (DecimalPos.Unsigned.to_uint_nonnil q).
  - destruct n as [|q|q]; cbn [Z.to_int]; try discriminate.
    intros E. injection E as E. now apply (DecimalPos.Unsigned.to_uint_nonnil q).
Qed.

Lemma str_int_inj (n n' : Z) : str_int n = str_int n' -> n = n'.
Proof.
  intros E. apply (f_equal int_of_str) in E.
  rewrite !str_int_round_trip in E. now injection E.
Qed.

Lemma chars_append (a b : string) :
  chars (a ++ b)%string = chars a ++ chars b.
Proof.
  unfold chars. induction a as [|c a IH]; cbn; [reflexivity|now rewrite IH].
Qed.

Lemma chars_inj (a b : string) : chars a = chars b -> a = b.
Proof.
  unfold chars. intros E.
  rewrite <- (string_of_list_ascii_of_string a), <- (string_of_list_ascii_of_string b).
  now rewrite E.
Qed.

(** Two texts ending in fixed suffixes, read from the end. *)
Lemma reversed_append (a b s t : string) :
  (a ++ s)%string = (b ++ t)%string ->
  rev (chars s) ++ rev (chars a) = rev (chars t) ++ rev (chars b).
Proof.
  intros E. apply (f_equal chars) in E. rewrite !chars_append in E.
  apply (f_equal (@rev ascii)) in E. now rewrite !rev_app_distr in E.
Qed.

Lemma same_suffix_same_id (n n' : Z) (s : string) :
  (str_int n ++ s)%string = (str_int n' ++ s)%string -> n = n'.
Proof.
  intros E. apply reversed_append in E. apply app_inv_head in E.
  apply (f_equal (@rev ascii)) in E. rewrite !rev_involutive in E.
  now apply str_int_inj, chars_inj.
Qed.

(** ** More on the handlers, for any persistence and validation modules *)

Section HandlerBehaviour.
Variable Store : Type.
Variable init_db : DB Store unit.
Variable load_tasks : DB Store (list Task).
Variable add_task : pyval -> pyval -> DB Store Z.
Variable update_task : Z -> pyval -> pyval -> DB Store bool.
Variable delete_task : Z -> DB Store bool.
Variable mark_task : Z -> bool -> DB Store bool.
Variable validate_task_description : pyval -> bool * string.
Variable validate_priority : pyval -> bool.

Local Open Scope string_scope.

Local Abbreviation xhr := task_reminder.is_xhr.
Local Abbreviation startup := (task_reminder.startup Store init_db).
Local Abbreviation index := (task_reminder.index Store load_tasks).
Local Abbreviation add :=
  (task_reminder.add Store add_task validate_task_description validate_priority).
Local Abbreviation update :=
  (task_reminder.update Store update_task validate_task_description validate_priority).
Local Abbreviation delete := (task_reminder.delete Store delete_task).
Local Abbreviation complete := (task_reminder.complete Store mark_task).
Local Abbreviation incomplete := (task_reminder.incomplete Store mark_task).

Ltac answered request :=
  unfold answer, logged, with_db;
  destruct (task_reminder.is_xhr request); cbn [fst snd db flashes log].

(** X1.  The store after a request is the store after the one persistence
    call the handler makes: [init_db] at startup, [load_tasks] for the index
    page, [delete_task] and [mark_task] with the id of the URL, and
    [add_task] or [update_task] with the submitted description and the
    priority after the fallback when the description is valid; with an
    invalid description the store is not touched.  This holds whether the
    call returns or raises and whatever the origin of the request. *)
Theorem store_changes_only_through_the_one_call :
  (forall w, db (snd (startup w)) = snd (init_db (db w))) /\
  (forall request w, db (snd (index request w)) = snd (load_tasks (db w))) /\
  (forall request w,
     let d := get (form request) "description" in
     let p0 := get_default (form request) "priority" "Medium" in
     let p := if validate_priority p0 then p0 else PyStr "Medium" in
     db (snd (add request w))
     = if fst (validate_task_description d) then snd (add_task d p (db w)) else db w) /\
  (forall i request w,
     let d := get (form request) "description" in
     let p0 := get (form request) "priority" in
     let p := if validate_priority p0 then p0 else PyStr "Medium" in
     db (snd (update i request w))
     = if fst (validate_task_description d) then snd (update_task i d p (db w)) else db w) /\
  (forall i request w, db (snd (delete i request w)) = snd (delete_task i (db w))) /\
  (forall i request w, db (snd (complete i request w)) = snd (mark_task i true (db w))) /\
  (forall i request w, db (snd (incomplete i request w)) = snd (mark_task i false (db w))).
Proof.
  split; [|split; [|split; [|split; [|split; [|split]]]]].
  - intros w. rewrite startup_run.
    destruct (init_db (db w)) as [[e|[]] s']; reflexivity.
  - intros request w. rewrite index_run. cbv zeta.
    destruct (load_tasks (db w)) as [[e|tasks] s']; reflexivity.
  - intros request w d p0 p. rewrite add_run. cbv zeta. fold d p0 p.
    destruct (validate_task_description d) as [[|] msg]; cbn [fst].
    + destruct (add_task d p (db w)) as [[e|j] s']; answered request; reflexivity.
    + answered request; reflexivity.
  - intros i request w d p0 p. rewrite update_run. cbv zeta. fold d p0 p.
    destruct (validate_task_description d) as [[|] msg]; cbn [fst].
    + destruct (update_task i d p (db w)) as [[e|[|]] s']; answered request; reflexivity.
    + answered request; reflexivity.
  - intros i request w. rewrite delete_run.
    destruct (delete_task i (db w)) as [[e|[|]] s']; answered request; reflexivity.
  - intros i request w. rewrite complete_run.
    destruct (mark_task i true (db w)) as [[e|[|]] s']; answered request; reflexivity.
  - intros i request w. rewrite incomplete_run.
    destruct (mark_task i false (db w)) as [[e|[|]] s']; answered request; reflexivity.
Qed.

Ltac flashed_once run rw :=
  unfold answer, logged, with_db;
  destruct (task_reminder.is_xhr (mkRequest _ _)) eqn:?; cbn [fst snd db flashes log];
  [ reflexivity
  | eexists; eexists; split; [reflexivity|];
    let hdrs' := fresh "hdrs'" in
    let X := fresh "X" in
    intros hdrs' X; rewrite run; cbv zeta; cbn [form]; rw;
    unfold answer; rewrite X; reflexivity ].

(** X2.  Each of the add, update, delete, complete and incomplete handlers
    flashes once for a browser: nothing is flashed for a script-originated
    request, and any other request adds exactly one flash after the ones
    already there, carrying the message and status its JSON answer would
    carry. *)
Theorem one_flash_per_browser_request :
  flashes_once_for_browser add /\
  (forall i, flashes_once_for_browser (update i)) /\
  (forall i, flashes_once_for_browser (delete i)) /\
  (forall i, flashes_once_for_browser (complete i)) /\
  (forall i, flashes_once_for_browser (incomplete i)).
Proof.
  unfold flashes_once_for_browser.
  split; [|split; [|split; [|split]]].
  - intros fields hdrs w. cbv zeta. rewrite add_run. cbv zeta. cbn [form].
    destruct (validate_task_description (get fields "description")) as [[|] msg] eqn:V.
    + destruct (validate_priority (get_default fields "priority" "Medium")) eqn:P;
        cbv iota;
        destruct (add_task _ _ (db w)) as [[e|j] s'] eqn:A;
        flashed_once add_run ltac:(rewrite V, P; cbv iota; rewrite A).
    + flashed_once add_run ltac:(rewrite V).
  - intros i fields hdrs w. cbv zeta. rewrite update_run. cbv zeta. cbn [form].
    destruct (validate_task_description (get fields "description")) as [[|] msg] eqn:V.
    + destruct (validate_priority (get fields "priority")) eqn:P;
        cbv iota;
        destruct (update_task i _ _ (db w)) as [[e|[|]] s'] eqn:A;
        flashed_once update_run ltac:(rewrite V, P; cbv iota; rewrite A).
    + flashed_once update_run ltac:(rewrite V).
  - intros i fields hdrs w. cbv zeta. rewrite delete_run.
    destruct (delete_task i (db w)) as [[e|[|]] s'] eqn:A;
      flashed_once delete_run ltac:(rewrite A).
  - intros i fields hdrs w. cbv zeta. rewrite complete_run.
    destruct (mark_task i true (db w)) as [[e|[|]] s'] eqn:A;
      flashed_once complete_run ltac:(rewrite A).
  - intros i fields hdrs w. cbv zeta. rewrite incomplete_run.
    destruct (mark_task i false (db w)) as [[e|[|]] s'] eqn:A;
      flashed_once incomplete_run ltac:(rewrite A).
Qed.

Ltac status_decided :=
  eexists; eexists; eexists; split; [reflexivity|];
  cbn [fst outcome_of];
  split; [|auto];
  split; intros S;
  first [ reflexivity
        | discriminate S
        | solve [repeat split; eauto]
        | exfalso;
          repeat match goal with
                 | H : _ /\ _ |- _ => destruct H
                 | H : exists _, _ |- _ => destruct H
                 end; discriminate ].

(** X3.  A handler answers with status "success" exactly when its persistence
    call went through: for add, when the description is valid and
    [add_task] returns an id; for update, when the description is valid and
    [update_task] returns true; for delete, complete and incomplete, when
    the call returns true.  In every other case (invalid description, a
    call returning false, a call raising) the status is "error"; there is no
    third status. *)
Theorem success_is_answered_exactly_when_the_call_succeeds :
  (forall request w,
     let d := get (form request) "description" in
     let p0 := get_default (form request) "priority" "Medium" in
     let p := if validate_priority p0 then p0 else PyStr "Medium" in
     exists message status w1,
       add request w = answer (xhr request) message status w1 /\
       (status = "success" <->
        fst (validate_task_description d) = true /\
        exists j, fst (add_task d p (db w)) = inr j) /\
       (status = "success" \/ status = "error")) /\
  (forall i request w,
     let d := get (form request) "description" in
     let p0 := get (form request) "priority" in
     let p := if validate_priority p0 then p0 else PyStr "Medium" in
     exists message status w1,
       update i request w = answer (xhr request) message status w1 /\
       (status = "success" <->
        fst (validate_task_description d) = true /\
        outcome_of (fst (update_task i d p (db w))) = Done) /\
       (status = "success" \/ status = "error")) /\
  (forall i request w,
     exists message status w1,
       delete i request w = answer (xhr request) message status w1 /\
       (status = "success" <-> outcome_of (fst (delete_task i (db w))) = Done) /\
       (status = "success" \/ status = "error")) /\
  (forall i request w,
     exists message status w1,
       complete i request w = answer (xhr request) message status w1 /\
       (status = "success" <-> outcome_of (fst (mark_task i true (db w))) = Done) /\
       (status = "success" \/ status = "error")) /\
  (forall i request w,
     exists message status w1,
       incomplete i request w = answer (xhr request) message status w1 /\
       (status = "success" <-> outcome_of (fst (mark_task i false (db w))) = Done) /\
       (status = "success" \/ status = "error")).
Proof.
  split; [|split; [|split; [|split]]].
  - intros request w d p0 p. rewrite add_run. cbv zeta. fold d p0 p.
    destruct (validate_task_description d) as [[|] msg].
    + destruct (add_task d p (db w)) as [[e|j] s']; status_decided.
    + status_decided.
  - intros i request w d p0 p. rewrite update_run. cbv zeta. fold d p0 p.
    destruct (validate_task_description d) as [[|] msg].
    + destruct (update_task i d p (db w)) as [[e|[|]] s']; status_decided.
    + status_decided.
  - intros i request w. rewrite delete_run.
    destruct (delete_task i (db w)) as [[e|[|]] s']; status_decided.
  - intros i request w. rewrite complete_run.
    destruct (mark_task i true (db w)) as [[e|[|]] s']; status_decided.
  - intros i request w. rewrite incomplete_run.
    destruct (mark_task i false (db w)) as [[e|[|]] s']; status_decided.
Qed.

Ltac log_extended :=
  first [ exists []; rewrite app_nil_r; split; [reflexivity|]
        | eexists; split; [reflexivity|]
        | eexists; split; [rewrite <- app_assoc; reflexivity|] ].

Ltac log_decided :=
  cbn [fst outcome_of app];
  split; [repeat (apply Forall_cons || apply Forall_nil); cbn [fst]; auto|];
  split; [cbn [length]; lia|];
  split; intros S;
  first [ reflexivity
        | discriminate S
        | solve [repeat split; eauto; discriminate]
        | exfalso;
          repeat match goal with
                 | H : _ /\ _ |- _ => destruct H
                 | H : exists _, _ |- _ => destruct H
                 end; congruence ].

(** X4.  The handlers only add to the log, at most two lines per request, and
    none of them at level INFO.  A request adds no line exactly when nothing
    went wrong: for add and update, when the description is valid, the
    priority is recognized and the persistence call does not raise; for
    delete, complete and incomplete, when the call does not raise.  A task
    that is not found is answered but not logged. *)
Theorem only_problems_are_logged :
  (forall request w,
     let d := get (form request) "description" in
     let p0 := get_default (form request) "priority" "Medium" in
     let p := if validate_priority p0 then p0 else PyStr "Medium" in
     exists extra,
       log (snd (add request w)) = (log w ++ extra)%list /\
       Forall (fun line => fst line = WARNING \/ fst line = ERROR) extra /\
       (length extra <= 2)%nat /\
       (extra = [] <->
        fst (validate_task_description d) = true /\ validate_priority p0 = true /\
        exists j, fst (add_task d p (db w)) = inr j)) /\
  (forall i request w,
     let d := get (form request) "description" in
     let p0 := get (form request) "priority" in
     let p := if validate_priority p0 then p0 else PyStr "Medium" in
     exists extra,
       log (snd (update i request w)) = (log w ++ extra)%list /\
       Forall (fun line => fst line = WARNING \/ fst line = ERROR) extra /\
       (length extra <= 2)%nat /\
       (extra = [] <->
        fst (validate_task_description d) = true /\ validate_priority p0 = true /\
        outcome_of (fst (update_task i d p (db w))) <> Failed)) /\
  (forall i request w,
     exists extra,
       log (snd (delete i request w)) = (log w ++ extra)%list /\
       Forall (fun line => fst line = WARNING \/ fst line = ERROR) extra /\
       (length extra <= 2)%nat /\
       (extra = [] <-> outcome_of (fst (delete_task i (db w))) <> Failed)) /\
  (forall i request w,
     exists extra,
       log (snd (complete i request w)) = (log w ++ extra)%list /\
       Forall (fun line => fst line = WARNING \/ fst line = ERROR) extra /\
       (length extra <= 2)%nat /\
       (extra = [] <-> outcome_of (fst (mark_task i true (db w))) <> Failed)) /\
  (forall i request w,
     exists extra,
       log (snd (incomplete i request w)) = (log w ++ extra)%list /\
       Forall (fun line => fst line = WARNING \/ fst line = ERROR) extra /\
       (length extra <= 2)%nat /\
       (extra = [] <-> outcome_of (fst (mark_task i false (db w))) <> Failed)).
Proof.
  split; [|split; [|split; [|split]]].
  - intros request w d p0 p. rewrite add_run. cbv zeta. fold d p0 p.
    destruct (validate_task_description d) as [[|] msg].
    + destruct (validate_priority p0) eqn:P;
        destruct (add_task d p (db w)) as [[e|j] s'];
        answered request; log_extended; log_decided.
    + answered request; log_extended; log_decided.
  - intros i request w d p0 p. rewrite update_run. cbv zeta. fold d p0 p.
    destruct (validate_task_description d) as [[|] msg].
    + destruct (validate_priority p0) eqn:P;
        destruct (update_task i d p (db w)) as [[e|[|]] s'];
        answered request; log_extended; log_decided.
    + answered request; log_extended; log_decided.
  - intros i request w. rewrite delete_run.
    destruct (delete_task i (db w)) as [[e|[|]] s'];
      answered request; log_extended; log_decided.
  - intros i request w. rewrite complete_run.
    destruct (mark_task i true (db w)) as [[e|[|]] s'];
      answered request; log_extended; log_decided.
  - intros i request w. rewrite incomplete_run.
    destruct (mark_task i false (db w)) as [[e|[|]] s'];
      answered request; log_extended; log_decided.
Qed.

(** X5.  The index page shows the tasks [load_tasks] returned, in the order
    returned, or no task when it raised; it flashes (once, an error) exactly
    when [load_tasks] raised; and it reads nothing of the request, neither
    form fields nor headers. *)
Theorem index_renders_what_was_loaded :
  (forall request w,
     fst (index request w)
     = inr (Render "index.html"
              match fst (load_tasks (db w)) with
              | inr tasks => tasks
              | inl _ => []
              end)) /\
  (forall request w,
     flashes (snd (index request w)) = flashes w <->
     exists tasks, fst (load_tasks (db w)) = inr tasks) /\
  (forall request w,
     flashes (snd (index request w))
     = (flashes w ++ match fst (load_tasks (db w)) with
                     | inr _ => []
                     | inl _ => [("An error occurred while loading tasks.", "error")]
                     end)%list) /\
  (forall request request' w, index request w = index request' w).
Proof.
  split; [|split; [|split]].
  - intros request w. rewrite index_run. cbv zeta.
    destruct (load_tasks (db w)) as [[e|tasks] s']; reflexivity.
  - intros request w. rewrite index_run. cbv zeta.
    destruct (load_tasks (db w)) as [[e|tasks] s']; cbn [fst snd flashes logged with_db].
    + split.
      * intros E. apply (f_equal (@length _)) in E.
        rewrite length_app in E. cbn [length] in E. lia.
      * intros [tasks E]. discriminate E.
    + split; [intros _; now exists tasks|reflexivity].
  - intros request w. rewrite index_run. cbv zeta.
    destruct (load_tasks (db w)) as [[e|tasks] s']; cbn [fst snd flashes logged with_db];
      [reflexivity|now rewrite app_nil_r].
  - intros request request' w. now rewrite !index_run.
Qed.

(** X6.  Startup raises exactly when [init_db] raises, and then the same
    exception.  Either way it writes exactly one line to the log, at level
    INFO when the database was initialised and at level ERROR when not, and
    flashes nothing. *)
Theorem startup_fails_exactly_when_init_db_fails :
  (forall w e, fst (startup w) = inl e <-> fst (init_db (db w)) = inl e) /\
  (forall w, fst (startup w) = inr tt <-> exists u, fst (init_db (db w)) = inr u) /\
  (forall w, exists line,
     log (snd (startup w)) = (log w ++ [line])%list /\
     (fst line = INFO <-> fst (startup w) = inr tt) /\
     (fst line = ERROR <-> exists e, fst (startup w) = inl e)) /\
  (forall w, flashes (snd (startup w)) = flashes w).
Proof.
  split; [|split; [|split]].
  - intros w e. rewrite startup_run.
    destruct (init_db (db w)) as [[e'|[]] s']; cbn [fst]; split; intros E;
      solve [exact E | discriminate E].
  - intros w. rewrite startup_run.
    destruct (init_db (db w)) as [[e'|[]] s']; cbn [fst]; split.
    + intros E. discriminate E.
    + intros [u E]. discriminate E.
    + intros _. now exists tt.
    + reflexivity.
  - intros w. rewrite startup_run.
    destruct (init_db (db w)) as [[e'|[]] s']; cbn [fst snd log logged with_db];
      eexists; (split; [reflexivity|]); cbn [fst]; split; split; intros E;
      solve [ reflexivity | discriminate E | now exists e'
            | destruct E as [e E]; discriminate E ].
  - intros w. rewrite startup_run.
    destruct (init_db (db w)) as [[e'|[]] s']; reflexivity.
Qed.

Lemma get_default_with_other_field (key other value default : string) (request : Request) :
  String.eqb other key = false ->
  get_default (form (with_field other value request)) key default
  = get_default (form request) key default.
Proof.
  intros E. unfold get_default, with_field. cbn [form lookup]. now rewrite E.
Qed.

(** X7.  The fallback on the priority is silent.  When [validate_priority]
    accepts Medium, a request whose priority it rejects is answered by the
    add and by the update handler with the response, the store and the
    flashes of the same request with priority Medium; when the description
    is valid, the log alone tells, by a warning. *)
Theorem unrecognized_priority_is_answered_as_medium
    (i : Z) (request : Request) (w : World Store) :
  let medium := with_field "priority" "Medium" request in
  let warning := (WARNING, "Invalid priority provided, defaulting to Medium") in
  validate_priority (PyStr "Medium") = true ->
  (validate_priority (get_default (form request) "priority" "Medium") = false ->
   fst (add request w) = fst (add medium w) /\
   db (snd (add request w)) = db (snd (add medium w)) /\
   flashes (snd (add request w)) = flashes (snd (add medium w)) /\
   (fst (validate_task_description (get (form request) "description")) = true ->
    In warning (log (snd (add request w))))) /\
  (validate_priority (get (form request) "priority") = false ->
   fst (update i request w) = fst (update i medium w) /\
   db (snd (update i request w)) = db (snd (update i medium w)) /\
   flashes (snd (update i request w)) = flashes (snd (update i medium w)) /\
   (fst (validate_task_description (get (form request) "description")) = true ->
    In warning (log (snd (update i request w))))).
Proof.
  intros medium warning M.
  assert (D : get (form medium) "description" = get (form request) "description")
    by (apply get_with_other_field; reflexivity).
  split; intros P.
  - rewrite !add_run. cbv zeta. rewrite D.
    change (get_default (form medium) "priority" "Medium") with (PyStr "Medium").
    change (task_reminder.is_xhr medium) with (task_reminder.is_xhr request).
    rewrite P, M.
    destruct (validate_task_description _) as [[|] msg]; cbn [fst].
    + destruct (add_task _ _ (db w)) as [[e|j] s']; answered request;
        repeat split; intros _; rewrite ?in_app_iff; cbn [In]; auto 7.
    + answered request; repeat split; intros V; discriminate V.
  - rewrite !update_run. cbv zeta. rewrite D.
    change (get (form medium) "priority") with (PyStr "Medium").
    change (task_reminder.is_xhr medium) with (task_reminder.is_xhr request).
    rewrite P, M.
    destruct (validate_task_description _) as [[|] msg]; cbn [fst].
    + destruct (update_task i _ _ (db w)) as [[e|[|]] s']; answered request;
        repeat split; intros _; rewrite ?in_app_iff; cbn [In]; auto 7.
    + answered request; repeat split; intros V; discriminate V.
Qed.

Ltac outcome_told X E :=
  unfold answer in E; rewrite X in E;
  match type of E with
  | context [if ?b then _ else _] => destruct b
  end;
  cbn [fst outcome_of String.append] in *;
  try discriminate E;
  (split; [reflexivity|]); intros N;
  first [ congruence
        | injection E as E; exact (same_suffix_same_id _ _ _ E) ].

(** X8.  The JSON answer of the delete, complete and incomplete handlers tells
    how the persistence call ended and for which task: when two requests to
    the same handler, for any ids and in any worlds, get the same JSON
    answer, both calls returned true, both returned false or both raised,
    and unless they raised the two ids are the same. *)
Theorem json_answer_tells_outcome_and_id
    (i1 i2 : Z) (r1 r2 : Request) (w1 w2 : World Store) :
  xhr r1 = true ->
  (fst (delete i1 r1 w1) = fst (delete i2 r2 w2) ->
   outcome_of (fst (delete_task i1 (db w1))) = outcome_of (fst (delete_task i2 (db w2))) /\
   (outcome_of (fst (delete_task i1 (db w1))) <> Failed -> i1 = i2)) /\
  (fst (complete i1 r1 w1) = fst (complete i2 r2 w2) ->
   outcome_of (fst (mark_task i1 true (db w1)))
   = outcome_of (fst (mark_task i2 true (db w2))) /\
   (outcome_of (fst (mark_task i1 true (db w1))) <> Failed -> i1 = i2)) /\
  (fst (incomplete i1 r1 w1) = fst (incomplete i2 r2 w2) ->
   outcome_of (fst (mark_task i1 false (db w1)))
   = outcome_of (fst (mark_task i2 false (db w2))) /\
   (outcome_of (fst (mark_task i1 false (db w1))) <> Failed -> i1 = i2)).
Proof.
  intros X. split; [|split]; intros E.
  - rewrite !delete_run in E.
    destruct (delete_task i1 (db w1)) as [[e1|[|]] s1];
      destruct (delete_task i2 (db w2)) as [[e2|[|]] s2];
      outcome_told X E.
  - rewrite !complete_run in E.
    destruct (mark_task i1 true (db w1)) as [[e1|[|]] s1];
      destruct (mark_task i2 true (db w2)) as [[e2|[|]] s2];
      outcome_told X E.
  - rewrite !incomplete_run in E.
    destruct (mark_task i1 false (db w1)) as [[e1|[|]] s1];
      destruct (mark_task i2 false (db w2)) as [[e2|[|]] s2];
      outcome_told X E.
Qed.
End HandlerBehaviour.

Lemma unrecognized_priority_witness :
  let request := mkRequest [("description", "Buy bread"); ("priority", "Urgent")] [] in
  let w := mkWorld (db_manager.Reachable [mkTask 1 "Buy milk" "High" false]) [] [] in
  model.validate_priority (PyStr "Medium") = true /\
  model.validate_priority (get_default (form request) "priority" "Medium") = false /\
  fst (app.add 200 request w) = fst (app.add 200 (with_field "priority" "Medium" request) w) /\
  db (snd (app.add 200 request w))
  = db (snd (app.add 200 (with_field "priority" "Medium" request) w)).
Proof.
  cbv zeta.
  assert (M : model.validate_priority (PyStr "Medium") = true) by reflexivity.
  assert (P : model.validate_priority
                (get_default
                   (form (mkRequest [("description", "Buy bread"); ("priority", "Urgent")] []))
                   "priority" "Medium") = false) by reflexivity.
  split; [exact M|]. split; [exact P|].
  destruct (proj1
    (unrecognized_priority_is_answered_as_medium
       db_manager.Medium db_manager.add_task db_manager.update_task
       (model.validate_task_description 200) model.validate_priority
       1 (mkRequest [("description", "Buy bread"); ("priority", "Urgent")] [])
       (mkWorld (db_manager.Reachable [mkTask 1 "Buy milk" "High" false]) [] []) M) P)
    as [R [S _]].
  split; [exact R|exact S].
Defined.

Lemma json_answer_witness :
  let r := mkRequest [] [("X-Requested-With", "XMLHttpRequest")] in
  let w1 := mkWorld (db_manager.Reachable [mkTask 1 "Buy milk" "High" false]) [] [] in
  let w2 := mkWorld (db_manager.Reachable [mkTask 1 "Buy milk" "High" false;
                                           mkTask 2 "Call home" "Low" true]) [] [] in
  task_reminder.is_xhr r = true /\
  fst (app.delete 1 r w1) = fst (app.delete 1 r w2) /\
  outcome_of (fst (db_manager.delete_task 1 (db w1)))
  = outcome_of (fst (db_manager.delete_task 1 (db w2))).
Proof.
  cbv zeta.
  assert (X : task_reminder.is_xhr (mkRequest [] [("X-Requested-With", "XMLHttpRequest")])
              = true) by reflexivity.
  assert (E : fst (app.delete 1 (mkRequest [] [("X-Requested-With", "XMLHttpRequest")])
                     (mkWorld (db_manager.Reachable [mkTask 1 "Buy milk" "High" false])
                        [] []))
              = fst (app.delete 1 (mkRequest [] [("X-Requested-With", "XMLHttpRequest")])
                       (mkWorld (db_manager.Reachable [mkTask 1 "Buy milk" "High" false;
                                                       mkTask 2 "Call home" "Low" true])
                          [] []))) by reflexivity.
  split; [exact X|]. split; [exact E|].
  exact (proj1 (proj1
    (json_answer_tells_outcome_and_id db_manager.Medium db_manager.delete_task
       db_manager.mark_task 1 1 _ _ _ _ X) E)).
Defined.
